(** * Upload-and-publish pipeline of the video-hosting backend

    A shallow embedding of the upload handlers
    ([handlerUploadThumbnail], [handlerUploadVideo]) and of the helpers
    they call ([getVideoAspectRatio], [processVideoForFastStart],
    [generatePresignedURL], [dbVideoToSignedVideo]), with the properties
    of the pipeline proved over the embedding.

    Go strings are byte sequences: they are [string] here (a list of
    [ascii], one per byte).  Go's [int] is 64 bits wide: it is a [Z] with
    the range written out where the code depends on it.  The metadata
    store, the local disk and the bucket are finite maps that the handlers
    thread through as state, together with the trace of what they did. *)

From Stdlib Require Import ZArith Lia Ascii String Bool.
From stdpp Require Import base option gmap strings list.

Open Scope string_scope.
Open Scope Z_scope.

(** * Part I: the model *)

(** ** Byte strings: [strings], [fmt], [strconv], [path/filepath] *)

(** [strings.Contains(s, string(c))] for a single byte [c]. *)
Fixpoint has (c : ascii) (s : string) : bool :=
  match s with
  | EmptyString => false
  | String x r => if Ascii.eqb x c then true else has c r
  end.

(** [strings.Count(s, string(c))] for a single byte [c]. *)
Fixpoint count (c : ascii) (s : string) : nat :=
  match s with
  | EmptyString => O
  | String x r => if Ascii.eqb x c then S (count c r) else count c r
  end.

(** [strings.Split(s, sep)] for a separator of one byte: the pieces of [s]
    between the occurrences of [sep], in order.  A string without the
    separator (the empty string too) gives a single piece. *)
Fixpoint Split (s : string) (sep : ascii) : list string :=
  match s with
  | EmptyString => [EmptyString]
  | String x r =>
      if Ascii.eqb x sep then EmptyString :: Split r sep
      else match Split r sep with
           | p :: ps => String x p :: ps
           | [] => [String x EmptyString]
           end
  end.

(** The decimal digit [d] (0 to 9) as a byte. *)
Definition digit (d : Z) : ascii := ascii_of_N (Z.to_N (48 + d)).

(** The decimal digits of [n >= 0] in front of [acc], most significant
    first.  The fuel bounds the number of digits. *)
Fixpoint utoa (fuel : nat) (n : Z) (acc : string) : string :=
  match fuel with
  | O => acc
  | S f =>
      let acc' := String (digit (n mod 10)) acc in
      if n <? 10 then acc' else utoa f (n / 10) acc'
  end.

(** [fmt.Sprintf("%d", n)]: an optional minus sign and the decimal digits.
    A number has no more decimal digits than binary ones. *)
Definition itoa (n : Z) : string :=
  if n <? 0 then String "-" (utoa (S (Z.to_nat (Z.log2 (- n)))) (- n) "")
  else utoa (S (Z.to_nat (Z.log2 n))) n "".

Definition minInt : Z := - 2 ^ 63.
Definition maxInt : Z := 2 ^ 63 - 1.

(** The loop of [strconv.Atoi] over the digits: [n = n*10 + int(ch - '0')],
    a syntax error (here [None]) on any other byte. *)
Fixpoint parseDigits (s : string) (n : Z) : option Z :=
  match s with
  | EmptyString => Some n
  | String ch r =>
      let d := Z.of_N (N_of_ascii ch) - 48 in
      if (0 <=? d) && (d <=? 9) then parseDigits r (n * 10 + d) else None
  end.

(** [strconv.Atoi(s)] on a 64-bit platform, as the pair of its results: the
    value and whether the error is non-nil.  A syntax error (an empty
    string, a lone sign, a byte that is not a digit) gives 0; a value out
    of the range of [int] gives the nearest bound. *)
Definition Atoi (s : string) : Z * bool :=
  match s with
  | EmptyString => (0, true)
  | String c r =>
      let neg := Ascii.eqb c "-" in
      let ds := if Ascii.eqb c "-" || Ascii.eqb c "+" then r else s in
      match ds with
      | EmptyString => (0, true)
      | _ =>
          match parseDigits ds 0 with
          | None => (0, true)
          | Some n =>
              let v := if neg then - n else n in
              if v <? minInt then (minInt, true)
              else if maxInt <? v then (maxInt, true)
              else (v, false)
          end
      end
  end.

(** One hexadecimal digit, lower case. *)
Definition hexDigit (n : N) : ascii :=
  if (n <? 10)%N then ascii_of_N (48 + n) else ascii_of_N (87 + n).

(** [fmt.Sprintf("%x", u)] for a [uuid.UUID]: the type has a [String]
    method, so the verb applies to the text that the method gives, two
    digits per byte of it. *)
Fixpoint hex (u : string) : string :=
  match u with
  | EmptyString => EmptyString
  | String b r =>
      let n := N_of_ascii b in
      String (hexDigit (n / 16)) (String (hexDigit (n mod 16)) (hex r))
  end.

(** [filepath.Ext(path)] with [/] as the separator: the suffix that starts
    at the last dot of the last element of [path], empty without a dot. *)
Fixpoint Ext (path : string) : string :=
  match path with
  | EmptyString => EmptyString
  | String c r =>
      if has "/" r || has "." r then Ext r
      else if Ascii.eqb c "." then path
      else EmptyString
  end.

(** The alphabet of [base64.StdEncoding]. *)
Definition encodeStd : string :=
  "ABCDEFGHIJKLMNOPQRSTUVWXYZabcdefghijklmnopqrstuvwxyz0123456789+/".

Definition b64 (n : N) : ascii :=
  match String.get (N.to_nat n) encodeStd with
  | Some c => c
  | None => "="%char
  end.

(** [base64.StdEncoding.EncodeToString]: three bytes give four digits, a
    last group of one or two bytes is padded with [=]. *)
Fixpoint EncodeToString (src : string) : string :=
  match src with
  | EmptyString => EmptyString
  | String x EmptyString =>
      let a := N_of_ascii x in
      String (b64 (a / 4)) (String (b64 (a mod 4 * 16)) "==")
  | String x (String y EmptyString) =>
      let a := N_of_ascii x in
      let b := N_of_ascii y in
      String (b64 (a / 4))
        (String (b64 (a mod 4 * 16 + b / 16))
           (String (b64 (b mod 16 * 4)) "="))
  | String x (String y (String z r)) =>
      let a := N_of_ascii x in
      let b := N_of_ascii y in
      let c := N_of_ascii z in
      String (b64 (a / 4))
        (String (b64 (a mod 4 * 16 + b / 16))
           (String (b64 (b mod 16 * 4 + c / 64))
              (String (b64 (c mod 64)) (EncodeToString r))))
  end.

(** ** Data *)

(** A [uuid.UUID], by its canonical text: what its [String] method
    gives. *)
Definition UUID : Type := string.

(** Modelled from the spec: the declaration of [database.Video] is not part
    of the sources.  A record has an identifier, an owning principal, a
    nullable thumbnail URL, a nullable video URL and descriptive fields. *)
Record Video : Type := mkVideo {
  ID : UUID;
  UserID : UUID;
  ThumbnailURL : option string;
  VideoURL : option string;
  Title : string;
  Description : string
}.

(** [video.ThumbnailURL = &u] and [video.VideoURL = &u] on the handler's
    own copy of the record. *)
Definition setThumbnailURL (v : Video) (u : string) : Video :=
  mkVideo (ID v) (UserID v) (Some u) (VideoURL v) (Title v) (Description v).

Definition setVideoURL (v : Video) (u : string) : Video :=
  mkVideo (ID v) (UserID v) (ThumbnailURL v) (Some u) (Title v) (Description v).

(** The fields of [apiConfig] that the handlers read.  Its [db] and
    [s3Client] are the stores of [State]. *)
Record apiConfig : Type := mkConfig {
  jwtSecret : string;
  s3Bucket : string;
  s3Region : string;
  assetsRoot : string;
  port : string
}.

(** A [multipart.FileHeader] with the file it describes: the name of the
    uploaded file, its [Content-Type] header (empty when absent) and the
    bytes.  The file of a part that is in the form is taken to open, as it
    does for every part that [ParseMultipartForm] holds in memory; a part
    that was moved to a temporary file which cannot be opened any more is
    not modelled. *)
Record FormFile : Type := mkFormFile {
  Filename : string;
  ContentType : string;
  content : string
}.

(** What a handler reads from the [http.Request]: the [videoID] of the
    path, the [Authorization] header, and the multipart form when the body
    parses ([None] when [ParseMultipartForm] fails, also by the size
    limit), as a map from field names to files. *)
Record Request : Type := mkRequest {
  PathValue_videoID : string;
  Authorization : string;
  MultipartForm : option (gmap string FormFile)
}.

Definition StatusOK : Z := 200.
Definition StatusBadRequest : Z := 400.
Definition StatusUnauthorized : Z := 401.
Definition StatusNotFound : Z := 404.
Definition StatusInternalServerError : Z := 500.

(** [time.Hour], a [time.Duration] in nanoseconds. *)
Definition Hour : Z := 60 * 60 * 1000000000.

(** ** External collaborators *)

(** The library functions and the asset helpers that the handlers call and
    that compute a result from their arguments alone.  The asset helpers
    ([getAssetPath], [getAssetDiskPath], [getAssetURL]) belong to this
    repository but not to the sources at hand: they are parameters. *)
Record Lib : Type := mkLib {
  uuid_Parse : string -> option UUID;
  GetBearerToken : string -> option string;
  ValidateJWT : string -> string -> option UUID;
  ParseMediaType : string -> option string;
  filepath_Abs : string -> option string;
  getAssetPath : UUID -> string -> string;
  getAssetDiskPath : apiConfig -> string -> string;
  getAssetURL : apiConfig -> string -> string
}.

(** What [ffprobe] and the decoding of its output give for a file: the
    command fails, its output is not the expected JSON, or the streams with
    their [width] and [height]. *)
Inductive ProbeResult : Type :=
| ProbeFailed
| ProbeGarbled
| ProbeStreams (streams : list (Z * Z)).

(** What [ffmpeg] does with a file: it exits with 0 and has written the
    output file, or it exits with an error, having written none of the
    output file or a part of it. *)
Inductive RemuxResult : Type :=
| RemuxDone (output : string)
| RemuxFailed (partial : option string).

(** The behaviour of the environment during one request: which of the
    fallible calls fail, and what the calls that depend on more than their
    arguments give. *)
Record Env : Type := mkEnv {
  os_Create_fails : bool;
  io_Copy_stops : option nat;
  io_ReadAll_fails : bool;
  os_CreateTemp_name : option string;
  Seek_fails : bool;
  os_Open_fails : bool;
  ffprobe : option string -> ProbeResult;
  ffmpeg : option string -> RemuxResult;
  uuid_New : UUID;
  PutObject_fails : bool;
  UpdateVideo_fails : bool;
  PresignGetObject : string -> string -> Z -> option string
}.

(** ** State and effects *)

(** What the handler asked of the stores and of the tools, and what it
    wrote to the response, in order.  A call is recorded whether it
    succeeds or not; [FileCreate] for a temporary file is recorded with the
    name that the system chose, so only when there is one.  Reading a file
    leaves no event. *)
Inductive Event : Type :=
| RespondError (code : Z) (msg : string)
| RespondJSON (code : Z) (payload : Video)
| DBGetVideo (id : UUID)
| DBUpdateVideo (v : Video)
| FileCreate (path : string)
| FileWrite (path : string)
| FileRemove (path : string)
| RunProbe (path : string)
| RunRemux (input output : string)
| S3Put (bucket key contentType : string)
| S3Presign (bucket key : string) (expires : Z).

(** The metadata store by record identifier, the files of the local disk by
    path, the objects of the bucket by bucket and key (with their content
    type), and what the handler has done so far. *)
Record State : Type := mkState {
  db : gmap string Video;
  disk : gmap string string;
  objects : gmap (string * string) (string * string);
  trace : list Event
}.

Definition emit (e : Event) (st : State) : State :=
  mkState (db st) (disk st) (objects st) (trace st ++ [e]).

Definition setDB (d : gmap string Video) (st : State) : State :=
  mkState d (disk st) (objects st) (trace st).

Definition setDisk (d : gmap string string) (st : State) : State :=
  mkState (db st) d (objects st) (trace st).

Definition setObjects (o : gmap (string * string) (string * string))
  (st : State) : State :=
  mkState (db st) (disk st) o (trace st).

(** How a statement ends: control goes on with a value, the handler
    executes [return], or it panics. *)
Inductive Flow (A : Type) : Type :=
| Next (a : A)
| Return
| Panic.

Arguments Next {A} a.
Arguments Return {A}.
Arguments Panic {A}.

Definition Handler (A : Type) : Type := State -> Flow A * State.

Definition ret {A} (a : A) : Handler A := fun st => (Next a, st).

Definition bind {A B} (m : Handler A) (k : A -> Handler B) : Handler B :=
  fun st =>
    match m st with
    | (Next a, st') => k a st'
    | (Return, st') => (Return, st')
    | (Panic, st') => (Panic, st')
    end.

Notation "x <- m ;; k" := (bind m (fun x => k))
  (at level 100, m at next level, right associativity).
Notation "m ;; k" := (bind m (fun _ => k))
  (at level 100, right associativity).

Definition return_ {A} : Handler A := fun st => (Return, st).

Definition panic {A} : Handler A := fun st => (Panic, st).

Definition effect (e : Event) : Handler unit := fun st => (Next tt, emit e st).

(** [defer f()] followed by the rest of the function: [f] runs when the
    function ends, however it ends. *)
Definition defer {A} (f : State -> State) (rest : Handler A) : Handler A :=
  fun st => let '(r, st') := rest st in (r, f st').

Definition when (b : bool) (h : Handler unit) : Handler unit :=
  if b then h else ret tt.

(** [respondWithError(w, code, msg, err)] and [respondWithJSON(w, code,
    payload)] write the response. *)
Definition respondWithError (code : Z) (msg : string) : Handler unit :=
  effect (RespondError code msg).

Definition respondWithJSON (code : Z) (payload : Video) : Handler unit :=
  effect (RespondJSON code payload).

(** [respondWithError(w, code, msg, err); return]. *)
Definition fail {A} (code : Z) (msg : string) : Handler A :=
  respondWithError code msg ;; return_.

(** [x, err := f(); if err != nil { respondWithError(w, code, msg, err);
    return }], for a call without effects and for one with effects. *)
Definition orFail {A} (r : option A) (code : Z) (msg : string) : Handler A :=
  match r with
  | Some a => ret a
  | None => fail code msg
  end.

Definition orFailM {A} (m : Handler (option A)) (code : Z) (msg : string)
  : Handler A :=
  r <- m ;; orFail r code msg.

(** [err != nil] for a call that gives nil results with its error. *)
Definition failed {A} (r : option A) : bool :=
  match r with
  | Some _ => false
  | None => true
  end.

(** A method call through a value that may be nil: nil panics. *)
Definition nonnil {A} (r : option A) : Handler A :=
  match r with
  | Some a => ret a
  | None => panic
  end.

(** *** The metadata store *)

(** Modelled from the spec: the methods of the store are not part of the
    sources.  [cfg.db.GetVideo(id)] gives the record of the identifier, or
    fails when there is none. *)
Definition GetVideo (id : UUID) : Handler (option Video) :=
  fun st => (Next (db st !! id), emit (DBGetVideo id) st).

(** Modelled from the spec: the methods of the store are not part of the
    sources.  [cfg.db.UpdateVideo(video)] replaces the record of the
    identifier of [video], or fails and changes nothing. *)
Definition UpdateVideo (env : Env) (v : Video) : Handler (option unit) :=
  fun st =>
    if UpdateVideo_fails env then (Next None, emit (DBUpdateVideo v) st)
    else (Next (Some tt),
          emit (DBUpdateVideo v) (setDB (<[ID v := v]> (db st)) st)).

(** *** The local disk *)

(** [os.Create(path)]: the file exists and is empty afterwards. *)
Definition os_Create (env : Env) (path : string) : Handler (option string) :=
  fun st =>
    if os_Create_fails env then (Next None, emit (FileCreate path) st)
    else (Next (Some path),
          emit (FileCreate path) (setDisk (<[path := ""]> (disk st)) st)).

(** [os.CreateTemp("", "tubely-upload-*.mp4")]: a new empty file under a
    name that the system chooses. *)
Definition os_CreateTemp (env : Env) : Handler (option string) :=
  fun st =>
    match os_CreateTemp_name env with
    | None => (Next None, st)
    | Some path =>
        (Next (Some path),
         emit (FileCreate path) (setDisk (<[path := ""]> (disk st)) st))
    end.

(** [io.Copy(dst, src)]: the whole of [src] ends up in the file, or the
    copy stops with an error after some of its bytes. *)
Definition io_Copy (env : Env) (dst : string) (src : string)
  : Handler (option unit) :=
  fun st =>
    match io_Copy_stops env with
    | None =>
        (Next (Some tt),
         emit (FileWrite dst) (setDisk (<[dst := src]> (disk st)) st))
    | Some n =>
        (Next None,
         emit (FileWrite dst)
           (setDisk (<[dst := String.substring 0 n src]> (disk st)) st))
    end.

Definition io_ReadAll (env : Env) (src : string) : Handler (option string) :=
  ret (if io_ReadAll_fails env then None else Some src).

(** [os.Remove(path)], as a deferred call. *)
Definition os_Remove (path : string) (st : State) : State :=
  emit (FileRemove path) (setDisk (delete path (disk st)) st).

(** [os.Open(path)]: the content to read, when the file exists. *)
Definition os_Open (env : Env) (path : string) : Handler (option string) :=
  fun st =>
    if os_Open_fails env then (Next None, st) else (Next (disk st !! path), st).

(** *** The bucket *)

(** [cfg.s3Client.PutObject]: the content of the open file [body] is stored
    under the bucket and key. *)
Definition PutObject (env : Env) (bucket key : string) (body : string)
  (contentType : string) : Handler (option unit) :=
  fun st =>
    if PutObject_fails env
    then (Next None, emit (S3Put bucket key contentType) st)
    else (Next (Some tt),
          emit (S3Put bucket key contentType)
            (setObjects (<[(bucket, key) := (body, contentType)]> (objects st))
               st)).

(** ** The helpers of the video handler *)

(** [getVideoAspectRatio(filePath)]: the ratio, or [None] for an error. *)
Definition getVideoAspectRatio (L : Lib) (env : Env) (filePath : string)
  : Handler (option string) :=
  match filepath_Abs L filePath with
  | None => ret None
  | Some absPath =>
      fun st =>
        let st' := emit (RunProbe absPath) st in
        match ffprobe env (disk st !! absPath) with
        | ProbeFailed => (Next None, st')
        | ProbeGarbled => (Next None, st')
        | ProbeStreams [] => (Next None, st')
        | ProbeStreams ((width, height) :: _) =>
            if (width =? 0) || (height =? 0) then (Next None, st')
            else (Next (Some (itoa width +:+ ":" +:+ itoa height)), st')
        end
  end.

(** The orientation switch of the handler on the ratio, with the names of
    the three prefixes as parameters: the two variants that probe differ in
    nothing else here. *)
Definition orientation (landscape portrait other : string) (ratio : string)
  : string :=
  match Split ratio ":" with
  | [p0; p1] =>
      let w := fst (Atoi p0) in
      let h := fst (Atoi p1) in
      if h <? w then landscape
      else if w <? h then portrait
      else other
  | _ => other
  end.

(** [processVideoForFastStart(filePath)]: the path of the remuxed copy, or
    [None] for an error. *)
Definition processVideoForFastStart (L : Lib) (env : Env) (filePath : string)
  : Handler (option string) :=
  match filepath_Abs L filePath with
  | None => ret None
  | Some absPath =>
      let processedPath := absPath +:+ ".processing" in
      fun st =>
        let st' := emit (RunRemux absPath processedPath) st in
        match ffmpeg env (disk st !! absPath) with
        | RemuxDone out =>
            (Next (Some processedPath),
             setDisk (<[processedPath := out]> (disk st')) st')
        | RemuxFailed (Some part) =>
            (Next None, setDisk (<[processedPath := part]> (disk st')) st')
        | RemuxFailed None => (Next None, st')
        end
  end.

(** [generatePresignedURL(s3Client, bucket, key, expireTime)]. *)
Definition generatePresignedURL (env : Env) (bucket key : string)
  (expireTime : Z) : Handler (option string) :=
  fun st =>
    (Next (PresignGetObject env bucket key expireTime),
     emit (S3Presign bucket key expireTime) st).

(** [cfg.dbVideoToSignedVideo(video)]: the record and whether the error is
    non-nil. *)
Definition dbVideoToSignedVideo (env : Env) (video : Video)
  : Handler (Video * bool) :=
  match VideoURL video with
  | None => ret (video, false)
  | Some u =>
      if String.eqb u "" then ret (video, false)
      else
        match Split u "," with
        | [bucket; key] =>
            r <- generatePresignedURL env bucket key Hour ;;
            match r with
            | None => ret (video, true)
            | Some url => ret (setVideoURL video url, false)
            end
        | _ => ret (video, true)
        end
  end.

(** The bytes that an open file gives when it is read from its start. *)
Definition readFrom (path : string) : Handler string :=
  fun st => (Next (default "" (disk st !! path)), st).

(** ** The handlers *)

(** [src/handler_upload_thumbnail.go]: the thumbnail is a file of the
    assets directory. *)
Module ThumbnailDisk.

Definition handlerUploadThumbnail (L : Lib) (cfg : apiConfig) (env : Env)
  (r : Request) : Handler unit :=
  videoID <- orFail (uuid_Parse L (PathValue_videoID r))
               StatusBadRequest "Invalid ID" ;;
  token <- orFail (GetBearerToken L (Authorization r))
             StatusUnauthorized "Couldn't find JWT" ;;
  userID <- orFail (ValidateJWT L token (jwtSecret cfg))
              StatusUnauthorized "Couldn't validate JWT" ;;
  form <- orFail (MultipartForm r) StatusBadRequest "Couldn't parse form" ;;
  (* r.FormFile("thumbnail"): on an error the response is written and the
     handler goes on, with a nil file and a nil header *)
  let formFile := form !! "thumbnail" in
  when (failed formFile)
    (respondWithError StatusBadRequest "Couldn't parse thumbnail") ;;
  (* defer multipartFile.Close() *)
  multipartFile <- nonnil formFile ;;
  let mediaType := ContentType multipartFile in
  when (String.eqb mediaType "")
    (fail StatusBadRequest "Missing Content-Type for thumbnail") ;;
  mediaTypeCheck <- orFail (ParseMediaType L mediaType)
                      StatusBadRequest "Unable to read mime in Content-Type" ;;
  when (negb (String.eqb mediaTypeCheck "image/jpeg")
        && negb (String.eqb mediaTypeCheck "image/png"))
    (fail StatusBadRequest "Invalid file type") ;;
  let assetPath := getAssetPath L videoID mediaType in
  let thumbnailDiskPath := getAssetDiskPath L cfg assetPath in
  thumbnailFile <- orFailM (os_Create env thumbnailDiskPath)
                     StatusInternalServerError
                     "Unable to create file on server" ;;
  (* defer thumbnailFile.Close() *)
  orFailM (io_Copy env thumbnailFile (content multipartFile))
    StatusInternalServerError "Error saving file" ;;
  video <- orFailM (GetVideo videoID)
             StatusInternalServerError "Couldn't find video" ;;
  when (negb (String.eqb (UserID video) userID))
    (fail StatusUnauthorized "Not authorized to update this video") ;;
  let dataURL := getAssetURL L cfg assetPath in
  let video := setThumbnailURL video dataURL in
  orFailM (UpdateVideo env video)
    StatusInternalServerError "Couldn't update video" ;;
  respondWithJSON StatusOK video.

End ThumbnailDisk.

(** [src/unnamed/part_000]: the thumbnail is embedded in the record as a
    data URL. *)
Module ThumbnailDataURL.

Definition handlerUploadThumbnail (L : Lib) (cfg : apiConfig) (env : Env)
  (r : Request) : Handler unit :=
  videoID <- orFail (uuid_Parse L (PathValue_videoID r))
               StatusBadRequest "Invalid ID" ;;
  token <- orFail (GetBearerToken L (Authorization r))
             StatusUnauthorized "Couldn't find JWT" ;;
  userID <- orFail (ValidateJWT L token (jwtSecret cfg))
              StatusUnauthorized "Couldn't validate JWT" ;;
  form <- orFail (MultipartForm r) StatusBadRequest "Couldn't parse form" ;;
  (* r.FormFile("thumbnail"): on an error the response is written and the
     handler goes on, with a nil file and a nil header *)
  let formFile := form !! "thumbnail" in
  when (failed formFile)
    (respondWithError StatusBadRequest "Couldn't parse thumbnail") ;;
  (* defer multipartFile.Close() *)
  multipartFile <- nonnil formFile ;;
  let mediaType := ContentType multipartFile in
  when (String.eqb mediaType "")
    (fail StatusBadRequest "Missing Content-Type for thumbnail") ;;
  fileBytesThumbnail <- orFailM (io_ReadAll env (content multipartFile))
                          StatusInternalServerError "Couldn't read file" ;;
  video <- orFailM (GetVideo videoID)
             StatusInternalServerError "Couldn't find video" ;;
  when (negb (String.eqb (UserID video) userID))
    (fail StatusUnauthorized "Not authorized to update this video") ;;
  let base64Thumbnail := EncodeToString fileBytesThumbnail in
  let dataURL := "data:" +:+ mediaType +:+ ";base64," +:+ base64Thumbnail in
  let video := setThumbnailURL video dataURL in
  orFailM (UpdateVideo env video)
    StatusInternalServerError "Couldn't update video" ;;
  respondWithJSON StatusOK video.

End ThumbnailDataURL.

(** The steps that the three variants of [handlerUploadVideo] have in
    common word for word, up to the temporary file: the identifier, the
    credential, the record and its owner, the form and the content type.
    They give the record, the uploaded file and the media type. *)
Definition videoPreamble (L : Lib) (cfg : apiConfig) (r : Request)
  : Handler (Video * FormFile * string) :=
  videoID <- orFail (uuid_Parse L (PathValue_videoID r))
               StatusBadRequest "Invalid video ID" ;;
  token <- orFail (GetBearerToken L (Authorization r))
             StatusUnauthorized "Missing or invalid authorization header" ;;
  userID <- orFail (ValidateJWT L token (jwtSecret cfg))
              StatusUnauthorized "Couldn't validate JWT" ;;
  video <- orFailM (GetVideo videoID) StatusNotFound "Couldn't find video" ;;
  when (negb (String.eqb (UserID video) userID))
    (fail StatusUnauthorized "Not authorized to modify this video") ;;
  form <- orFail (MultipartForm r)
            StatusBadRequest "Failed to parse multipart form" ;;
  videoFile <- orFail (form !! "video")
                 StatusBadRequest "Missing 'video' file in form data" ;;
  (* defer videoFile.Close() *)
  let contentType := ContentType videoFile in
  when (String.eqb contentType "")
    (fail StatusBadRequest "Missing Content-Type header") ;;
  mediaType <- match ParseMediaType L contentType with
               | Some mediaType =>
                   if String.eqb mediaType "video/mp4" then ret mediaType
                   else fail StatusBadRequest
                          "Invalid file type: only video/mp4 allowed"
               | None =>
                   fail StatusBadRequest
                     "Invalid file type: only video/mp4 allowed"
               end ;;
  ret (video, videoFile, mediaType).

(** The staging of the upload in the temporary file, the same in the three
    variants: the copy and the seek back to the start. *)
Definition stageUpload (env : Env) (tempFile : string) (videoFile : FormFile)
  : Handler unit :=
  orFailM (io_Copy env tempFile (content videoFile))
    StatusInternalServerError "Failed to write video to temporary file" ;;
  when (Seek_fails env)
    (fail StatusInternalServerError "Failed to reset file pointer").

(** [src/unnamed/part_001]: the video goes to the bucket as it is and the
    record gets the public URL of the object. *)
Module VideoDirect.

Definition handlerUploadVideo (L : Lib) (cfg : apiConfig) (env : Env)
  (r : Request) : Handler unit :=
  checked <- videoPreamble L cfg r ;;
  let '(video, videoFile, mediaType) := checked in
  tempFile <- orFailM (os_CreateTemp env)
                StatusInternalServerError "Failed to create temporary file" ;;
  defer (os_Remove tempFile) (
    stageUpload env tempFile videoFile ;;
    let videoKey := hex (uuid_New env) +:+ Ext (Filename videoFile) in
    body <- readFrom tempFile ;;
    orFailM (PutObject env (s3Bucket cfg) videoKey body mediaType)
      StatusInternalServerError "Failed to upload video to S3" ;;
    let videoURL := "https://" +:+ s3Bucket cfg +:+ ".s3." +:+ s3Region cfg
                    +:+ ".amazonaws.com/" +:+ videoKey in
    let video := setVideoURL video videoURL in
    orFailM (UpdateVideo env video)
      StatusInternalServerError "Failed to update video record" ;;
    respondWithJSON StatusOK video).

End VideoDirect.

(** [src/unnamed/part_002], first file: the key gets a directory for the
    orientation of the video. *)
Module VideoOriented.

Definition handlerUploadVideo (L : Lib) (cfg : apiConfig) (env : Env)
  (r : Request) : Handler unit :=
  checked <- videoPreamble L cfg r ;;
  let '(video, videoFile, mediaType) := checked in
  tempFile <- orFailM (os_CreateTemp env)
                StatusInternalServerError "Failed to create temporary file" ;;
  defer (os_Remove tempFile) (
    stageUpload env tempFile videoFile ;;
    ratio <- orFailM (getVideoAspectRatio L env tempFile)
               StatusInternalServerError "Failed to read video metadata" ;;
    let prefix := orientation "landscape/" "portrait/" "other/" ratio in
    let videoKey := prefix +:+ hex (uuid_New env)
                    +:+ Ext (Filename videoFile) in
    body <- readFrom tempFile ;;
    orFailM (PutObject env (s3Bucket cfg) videoKey body mediaType)
      StatusInternalServerError "Failed to upload video to S3" ;;
    let videoURL := "https://" +:+ s3Bucket cfg +:+ ".s3." +:+ s3Region cfg
                    +:+ ".amazonaws.com/" +:+ videoKey in
    let video := setVideoURL video videoURL in
    orFailM (UpdateVideo env video)
      StatusInternalServerError "Failed to update video record" ;;
    respondWithJSON StatusOK video).

End VideoOriented.

(** [src/unnamed/part_002], second file: the video is remuxed for fast
    start, the record gets the bucket and the key, and the response a
    presigned URL. *)
Module VideoPresigned.

Definition handlerUploadVideo (L : Lib) (cfg : apiConfig) (env : Env)
  (r : Request) : Handler unit :=
  checked <- videoPreamble L cfg r ;;
  let '(video, videoFile, mediaType) := checked in
  tempFile <- orFailM (os_CreateTemp env)
                StatusInternalServerError "Failed to create temporary file" ;;
  defer (os_Remove tempFile) (
    stageUpload env tempFile videoFile ;;
    ratio <- orFailM (getVideoAspectRatio L env tempFile)
               StatusInternalServerError "Failed to read video metadata" ;;
    let prefix := orientation "landscape-" "portrait-" "other-" ratio in
    processedPath <- orFailM (processVideoForFastStart L env tempFile)
                       StatusInternalServerError "Failed to process video" ;;
    defer (os_Remove processedPath) (
      processedFile <- orFailM (os_Open env processedPath)
                         StatusInternalServerError
                         "Failed to read processed video" ;;
      (* defer processedFile.Close() *)
      let videoKey := prefix +:+ hex (uuid_New env)
                      +:+ Ext (Filename videoFile) in
      orFailM (PutObject env (s3Bucket cfg) videoKey processedFile mediaType)
        StatusInternalServerError "Failed to upload video to S3" ;;
      let bucketAndKey := s3Bucket cfg +:+ "," +:+ videoKey in
      let video := setVideoURL video bucketAndKey in
      orFailM (UpdateVideo env video)
        StatusInternalServerError "Failed to update video record" ;;
      signed <- dbVideoToSignedVideo env video ;;
      let '(signedVideo, err) := signed in
      when err
        (fail StatusInternalServerError "Failed to sign video URL") ;;
      respondWithJSON StatusOK signedVideo)).

End VideoPresigned.

(** How a handler ends for the server that called it. *)
Inductive Outcome : Type := Finished | Panicked.

Definition serve (h : Handler unit) (st : State) : Outcome * State :=
  match h st with
  | (Next _, st') => (Finished, st')
  | (Return, st') => (Finished, st')
  | (Panic, st') => (Panicked, st')
  end.

(** The request names a record and carries a valid credential of the
    principal [userID]: the first three steps of every handler pass. *)
Definition authenticated (L : Lib) (cfg : apiConfig) (r : Request)
  (videoID userID : UUID) : Prop :=
  uuid_Parse L (PathValue_videoID r) = Some videoID /\
  exists token,
    GetBearerToken L (Authorization r) = Some token /\
    ValidateJWT L token (jwtSecret cfg) = Some userID.

(** The keys of the objects that a trace puts to the bucket, and the
    records that it gives to [UpdateVideo], in order. *)
Definition keys (t : list Event) : list string :=
  omap (fun e => match e with
                 | S3Put _ key _ => Some key
                 | _ => None
                 end) t.

Definition updates (t : list Event) : list Video :=
  omap (fun e => match e with
                 | DBUpdateVideo v => Some v
                 | _ => None
                 end) t.

(** The status codes of the responses in a trace, in order. *)
Definition statuses (t : list Event) : list Z :=
  omap (fun e => match e with
                 | RespondError code _ => Some code
                 | RespondJSON code _ => Some code
                 | _ => None
                 end) t.

(** ** A concrete deployment

    Simple stand-ins for the collaborators, to run the handlers on concrete
    requests.  The theorems below hold for every [Lib] and every [Env];
    these instances only serve to evaluate them. *)
Module Sample.

(** Identifiers are taken as they are written; the empty string is
    malformed. *)
Definition parseID (s : string) : option UUID :=
  if String.eqb s "" then None else Some s.

(** The credential after [Bearer ]. *)
Definition bearer (h : string) : option string :=
  if String.prefix "Bearer " h
  then Some (String.substring 7 (String.length h - 7) h)
  else None.

(** A token is the principal, a dot and the secret. *)
Definition validate (token secret : string) : option UUID :=
  match Split token "." with
  | [user; sig] => if String.eqb sig secret then Some user else None
  | _ => None
  end.

(** The media type is what precedes the parameters; it has a slash. *)
Definition mediaType (v : string) : option string :=
  match Split v ";" with
  | t :: _ => if has "/" t then Some t else None
  | [] => None
  end.

Definition abs (p : string) : option string :=
  Some (if String.prefix "/" p then p else "/srv/tubely/" +:+ p).

Definition assetPath (id : UUID) (mt : string) : string :=
  match Split mt "/" with
  | [_; ext] => id +:+ "." +:+ ext
  | _ => id +:+ ".bin"
  end.

Definition assetDiskPath (cfg : apiConfig) (p : string) : string :=
  assetsRoot cfg +:+ "/" +:+ p.

Definition assetURL (cfg : apiConfig) (p : string) : string :=
  "http://localhost:" +:+ port cfg +:+ "/assets/" +:+ p.

Definition lib : Lib :=
  mkLib parseID bearer validate mediaType abs assetPath assetDiskPath assetURL.

Definition cfg : apiConfig :=
  mkConfig "s3cr3t" "tubely-private" "us-east-2" "/srv/tubely/assets" "8091".

Definition presign (bucket key : string) (expires : Z) : option string :=
  Some ("https://" +:+ bucket +:+ ".s3.amazonaws.com/" +:+ key
        +:+ "?X-Amz-Expires=" +:+ itoa (expires / 1000000000)).

(** The identifier that [uuid.New] gives, and its form in a key. *)
Definition newID : UUID := "123e4567-e89b-42d3-a456-426614174000".
Definition newName : string := Eval vm_compute in hex newID.

(** Every call succeeds; the probe sees one stream of [w] by [h]; the
    remux gives the file back as it is. *)
Definition env (w h : Z) : Env :=
  mkEnv false None false (Some "/tmp/tubely-upload-1.mp4") false false
    (fun _ => ProbeStreams [(w, h)])
    (fun f => match f with
              | Some bytes => RemuxDone bytes
              | None => RemuxFailed None
              end)
    newID false false presign.

(** As [env], but [ffmpeg] gives up after it has written a part of its
    output. *)
Definition envRemuxBreaks (w h : Z) : Env :=
  mkEnv false None false (Some "/tmp/tubely-upload-1.mp4") false false
    (fun _ => ProbeStreams [(w, h)])
    (fun _ => RemuxFailed (Some "ftyp"))
    newID false false presign.

(** The record [V1] of [alice], without media. *)
Definition V1 : Video := mkVideo "V1" "alice" None None "Holiday" "".

Definition start : State := mkState {[ "V1" := V1 ]} ∅ ∅ [].

(** Uploaded files: an mp4 video, the same under a name whose extension
    has a comma, a PNG image and a text file. *)
Definition clip : FormFile := mkFormFile "clip.mp4" "video/mp4" "BYTES".
Definition oddClip : FormFile := mkFormFile "clip.mp4,v" "video/mp4" "BYTES".
Definition png : FormFile := mkFormFile "thumb.png" "image/png" "PNG".
Definition notes : FormFile := mkFormFile "notes.txt" "text/plain" "hello".

Definition upload (field : string) (f : FormFile) : Request :=
  mkRequest "V1" "Bearer alice.s3cr3t" (Some {[ field := f ]}).

Definition uploadAs (user field : string) (f : FormFile) : Request :=
  mkRequest "V1" ("Bearer " +:+ user +:+ ".s3cr3t") (Some {[ field := f ]}).

(** More environments: the update of the record fails; the presigner
    gives an error; the copy of the upload stops after two bytes. *)
Definition envUpdateFails : Env :=
  mkEnv false None false (Some "/tmp/tubely-upload-1.mp4") false false
    (fun _ => ProbeStreams [(1920, 1080)])
    (fun f => match f with
              | Some bytes => RemuxDone bytes
              | None => RemuxFailed None
              end)
    newID false true presign.

Definition envSignerDown : Env :=
  mkEnv false None false (Some "/tmp/tubely-upload-1.mp4") false false
    (fun _ => ProbeStreams [(1920, 1080)])
    (fun f => match f with
              | Some bytes => RemuxDone bytes
              | None => RemuxFailed None
              end)
    newID false false (fun _ _ _ => None).



(** A state in which the staged upload is on the disk. *)
Definition staged : State :=
  mkState {[ "V1" := V1 ]} {[ "/tmp/tubely-upload-1.mp4" := "BYTES" ]} ∅ [].

End Sample.

(** ** Predicates on runs *)

(** The run of a handler from [st] to [st'] has written exactly one
    response, with one of the five status codes that the handlers use. *)
Definition respondsOnce (st st' : State) : Prop :=
  exists code,
    statuses (trace st') = (statuses (trace st) ++ [code])%list
    /\ In code [StatusOK; StatusBadRequest; StatusUnauthorized;
                StatusNotFound; StatusInternalServerError].

(** The run from [st] to [st'] for the request [r] has left the metadata
    store as it was, or the request carries a valid credential of the
    owner of the record that it names and the run has replaced that record
    by itself with one URL set by [set]. *)
Definition ownerOnly (L : Lib) (cfg : apiConfig) (r : Request)
  (set : Video -> string -> Video) (st st' : State) : Prop :=
  db st' = db st
  \/ exists videoID video url,
       authenticated L cfg r videoID (UserID video)
       /\ db st !! videoID = Some video
       /\ db st' = <[ID video := set video url]> (db st).

(** The run has put no object, or one object of type [video/mp4] into the
    configured bucket. *)
Definition putsAtMostOne (cfg : apiConfig) (st st' : State) : Prop :=
  objects st' = objects st
  \/ exists key body,
       objects st'
       = <[(s3Bucket cfg, key) := (body, "video/mp4")]> (objects st).

(** The name that the system chooses for the temporary file is not the
    name of a file, and neither is the name of the remuxed copy beside
    it. *)
Definition freshTemp (env : Env) (st : State) : Prop :=
  forall tmp, os_CreateTemp_name env = Some tmp -> disk st !! tmp = None.

Definition freshProcessed (L : Lib) (env : Env) (st : State) : Prop :=
  forall tmp abs,
    os_CreateTemp_name env = Some tmp ->
    filepath_Abs L tmp = Some abs ->
    disk st !! (abs +:+ ".processing") = None.

(** [ffmpeg] does not give up after it has written a part of its
    output. *)
Definition remuxAllOrNothing (env : Env) : Prop :=
  forall file part, ffmpeg env file <> RemuxFailed (Some part).

(** The public URL of an object, as the two earlier video handlers build
    it: [fmt.Sprintf("https://%s.s3.%s.amazonaws.com/%s", cfg.s3Bucket,
    cfg.s3Region, videoKey)]. *)
Definition publicURL (cfg : apiConfig) (key : string) : string :=
  "https://" +:+ s3Bucket cfg +:+ ".s3." +:+ s3Region cfg
  +:+ ".amazonaws.com/" +:+ key.

(** * Part II: properties *)

(** ** Splitting and joining *)

Lemma has_app c a b : has c (a +:+ b) = has c a || has c b.
Proof.
  induction a as [|x a IH]; simpl; [reflexivity|].
  destruct (Ascii.eqb x c); [reflexivity|exact IH].
Qed.

Lemma count_app c a b : count c (a +:+ b) = (count c a + count c b)%nat.
Proof.
  induction a as [|x a IH]; simpl; [reflexivity|].
  destruct (Ascii.eqb x c); simpl; rewrite IH; reflexivity.
Qed.

Lemma has_count c s : has c s = true -> (1 <= count c s)%nat.
Proof.
  induction s as [|x r IH]; simpl; [discriminate|].
  destruct (Ascii.eqb x c); [lia|exact IH].
Qed.

(** Splitting gives one piece more than there are separators. *)
Lemma Split_length s sep : length (Split s sep) = S (count sep s).
Proof.
  induction s as [|x r IH]; simpl; [reflexivity|].
  destruct (Ascii.eqb x sep); simpl; [rewrite IH; reflexivity|].
  destruct (Split r sep) as [|p ps]; simpl in *; [discriminate|exact IH].
Qed.

Lemma Split_no_sep s sep : has sep s = false -> Split s sep = [s].
Proof.
  induction s as [|x r IH]; simpl; [reflexivity|].
  destruct (Ascii.eqb x sep); [discriminate|].
  intros H. rewrite (IH H). reflexivity.
Qed.

Lemma Split_app a b sep :
  has sep a = false -> Split (a +:+ String sep b) sep = a :: Split b sep.
Proof.
  induction a as [|x r IH]; simpl.
  - intros _. rewrite Ascii.eqb_refl. reflexivity.
  - destruct (Ascii.eqb x sep); [discriminate|].
    intros H. rewrite (IH H). reflexivity.
Qed.

(** Joining two strings that are free of the separator and splitting the
    result gives the two strings back. *)
Lemma Split_join a b sep :
  has sep a = false -> has sep b = false ->
  Split (a +:+ String sep b) sep = [a; b].
Proof.
  intros Ha Hb. rewrite (Split_app _ _ _ Ha), (Split_no_sep _ _ Hb).
  reflexivity.
Qed.

(** When one of the two has the separator, there are three pieces or
    more. *)
Lemma Split_join_more a b sep :
  has sep a || has sep b = true ->
  (3 <= length (Split (a +:+ String sep b) sep))%nat.
Proof.
  intros H. rewrite Split_length, count_app. simpl.
  rewrite Ascii.eqb_refl.
  apply orb_true_iff in H as [H|H]; apply has_count in H; lia.
Qed.

(** ** Decimal and hexadecimal digits *)

Lemma N_of_digit d : 0 <= d <= 9 -> Z.of_N (N_of_ascii (digit d)) = 48 + d.
Proof.
  intros H. unfold digit. rewrite N_ascii_embedding; lia.
Qed.

(** A byte outside ['0'..'9'] is not a digit. *)
Lemma digit_other c d :
  0 <= d <= 9 ->
  (N_of_ascii c < 48 \/ 57 < N_of_ascii c)%N ->
  Ascii.eqb (digit d) c = false.
Proof.
  intros Hd Hc. apply Ascii.eqb_neq. intros <-.
  pose proof (N_of_digit d Hd). lia.
Qed.

Lemma has_utoa c fuel n acc :
  (N_of_ascii c < 48 \/ 57 < N_of_ascii c)%N ->
  has c (utoa fuel n acc) = has c acc.
Proof.
  intros Hc. revert n acc.
  induction fuel as [|f IH]; intros n acc; simpl; [reflexivity|].
  assert (Hd : has c (String (digit (n mod 10)) acc) = has c acc).
  { simpl. rewrite digit_other; [reflexivity| |exact Hc].
    pose proof (Z.mod_pos_bound n 10). lia. }
  destruct (n <? 10); [exact Hd|].
  rewrite IH. exact Hd.
Qed.

Lemma utoa_nonempty fuel n acc :
  exists c r, utoa (S fuel) n acc = String c r.
Proof.
  revert n acc. induction fuel as [|f IH]; intros n acc.
  - simpl. destruct (n <? 10); eauto.
  - change (utoa (S (S f)) n acc)
      with (if n <? 10 then String (digit (n mod 10)) acc
            else utoa (S f) (n / 10) (String (digit (n mod 10)) acc)).
    destruct (n <? 10); eauto.
Qed.

(** Reading back what [utoa] wrote: with enough fuel, the digits of [n] in
    front of [acc] read as [n] followed by [acc]. *)
Lemma parseDigits_utoa fuel n acc :
  0 <= n < 2 ^ Z.of_nat fuel ->
  parseDigits (utoa fuel n acc) 0 = parseDigits acc n.
Proof.
  revert n acc. induction fuel as [|f IH]; intros n acc Hn.
  - simpl in *. assert (n = 0) by lia. subst n. reflexivity.
  - assert (Hstep : forall k, parseDigits (String (digit (n mod 10)) acc) k
                              = parseDigits acc (k * 10 + n mod 10)).
    { intros k. simpl.
      pose proof (Z.mod_pos_bound n 10 ltac:(lia)) as Hm.
      rewrite N_of_digit by lia.
      replace (48 + n mod 10 - 48) with (n mod 10) by lia.
      destruct (Z.leb_spec 0 (n mod 10)); [|lia].
      destruct (Z.leb_spec (n mod 10) 9); [|lia].
      reflexivity. }
    simpl utoa. destruct (Z.ltb_spec n 10) as [Hlt|Hge].
    + rewrite Hstep. f_equal. rewrite Z.mod_small; lia.
    + rewrite IH.
      * rewrite Hstep. f_equal. pose proof (Z.div_mod n 10). lia.
      * rewrite Nat2Z.inj_succ, Z.pow_succ_r in Hn by lia.
        split; [apply Z.div_pos; lia|].
        apply Z.div_lt_upper_bound; lia.
Qed.

Lemma fuel_enough n :
  0 <= n -> 0 <= n < 2 ^ Z.of_nat (S (Z.to_nat (Z.log2 n))).
Proof.
  intros Hn. split; [exact Hn|].
  rewrite Nat2Z.inj_succ, Z2Nat.id by apply Z.log2_nonneg.
  destruct (Z.eq_dec n 0) as [->|Hne]; [reflexivity|].
  apply Z.log2_spec. lia.
Qed.

(** [strconv.Atoi] reads back what [%d] printed, for every [int]. *)
Lemma Atoi_itoa n : minInt <= n <= maxInt -> Atoi (itoa n) = (n, false).
Proof.
  intros Hr. unfold itoa.
  destruct (Z.ltb_spec n 0) as [Hneg|Hpos].
  - set (f := Z.to_nat (Z.log2 (- n))).
    destruct (utoa_nonempty f (- n) "") as (c & r & E).
    unfold Atoi. simpl orb. cbv iota. rewrite E, <- E.
    unfold f. rewrite parseDigits_utoa by (apply fuel_enough; lia).
    simpl parseDigits. simpl Ascii.eqb. cbv iota.
    replace (- - n) with n by lia.
    destruct (Z.ltb_spec n minInt); [lia|].
    destruct (Z.ltb_spec maxInt n); [lia|]. reflexivity.
  - set (f := Z.to_nat (Z.log2 n)).
    destruct (utoa_nonempty f n "") as (c & r & E).
    assert (Hm : has "-" (utoa (S f) n "") = false)
      by (apply has_utoa; vm_compute; left; reflexivity).
    assert (Hp : has "+" (utoa (S f) n "") = false)
      by (apply has_utoa; vm_compute; left; reflexivity).
    rewrite E in Hm, Hp. simpl in Hm, Hp.
    destruct (Ascii.eqb c "-") eqn:Em; [discriminate|].
    destruct (Ascii.eqb c "+") eqn:Ep; [discriminate|].
    rewrite E. unfold Atoi. rewrite Em, Ep. simpl orb. cbv iota.
    rewrite <- E. unfold f.
    rewrite parseDigits_utoa by (apply fuel_enough; lia).
    simpl parseDigits. cbv beta iota zeta.
    destruct (Z.ltb_spec n minInt); [lia|].
    destruct (Z.ltb_spec maxInt n); [lia|]. reflexivity.
Qed.

Lemma itoa_no_colon n : has ":" (itoa n) = false.
Proof.
  assert (Hc : (N_of_ascii ":" < 48 \/ 57 < N_of_ascii ":")%N)
    by (right; reflexivity).
  unfold itoa. destruct (n <? 0).
  - change (has ":" (String "-" ?s)) with (has ":" s).
    rewrite has_utoa by exact Hc. reflexivity.
  - rewrite has_utoa by exact Hc. reflexivity.
Qed.

Lemma hex_no_comma u : has "," (hex u) = false.
Proof.
  induction u as [|b r IH]; [reflexivity|].
  change (hex (String b r))
    with (String (hexDigit (N_of_ascii b / 16))
            (String (hexDigit (N_of_ascii b mod 16)) (hex r))).
  change (has "," (String ?x (String ?y ?t)))
    with (if Ascii.eqb x "," then true
          else if Ascii.eqb y "," then true else has "," t).
  rewrite IH.
  destruct b as [[] [] [] [] [] [] [] []]; vm_compute; reflexivity.
Qed.

(** ** Running the handlers *)

Lemma bind_Next {A B} (m : Handler A) (k : A -> Handler B) st a st1 :
  m st = (Next a, st1) -> bind m k st = k a st1.
Proof. intros H. unfold bind. rewrite H. reflexivity. Qed.

Lemma bind_Return {A B} (m : Handler A) (k : A -> Handler B) st st1 :
  m st = (Return, st1) -> bind m k st = (Return, st1).
Proof. intros H. unfold bind. rewrite H. reflexivity. Qed.

Lemma statuses_emit e st :
  statuses (trace (emit e st))
  = (statuses (trace st)
     ++ match e with
        | RespondError code _ => [code]
        | RespondJSON code _ => [code]
        | _ => []
        end)%list.
Proof.
  unfold statuses, emit. cbn [trace]. rewrite omap_app.
  destruct e; reflexivity.
Qed.

Lemma keys_emit e st :
  keys (trace (emit e st))
  = (keys (trace st)
     ++ match e with S3Put _ key _ => [key] | _ => [] end)%list.
Proof.
  unfold keys, emit. cbn [trace]. rewrite omap_app.
  destruct e; reflexivity.
Qed.

Lemma updates_emit e st :
  updates (trace (emit e st))
  = (updates (trace st)
     ++ match e with DBUpdateVideo v => [v] | _ => [] end)%list.
Proof.
  unfold updates, emit. cbn [trace]. rewrite omap_app.
  destruct e; reflexivity.
Qed.

(** Unfolding of the monad and of the calls, to run a handler on a state
    of which enough is known. *)
Ltac hunfold :=
  unfold serve, stageUpload, orFailM, orFail, fail, when, nonnil, failed,
    respondWithError, respondWithJSON, effect, return_, ret, panic, defer,
    GetVideo, UpdateVideo, os_Create, os_CreateTemp, io_Copy, io_ReadAll,
    os_Open, PutObject, readFrom, generatePresignedURL, bind.

Ltac hrewrite :=
  match goal with
  | H : ?x = _ |- context [?x] => rewrite H
  end.

Ltac hrun := repeat first [hrewrite | progress cbn].

(** Case analysis on the next undecided test of a handler that is being
    run. *)
Ltac hcase :=
  match goal with
  | |- context [match ?x with _ => _ end] =>
      lazymatch x with
      | context [match _ with _ => _ end] => fail
      | _ => destruct x eqn:?
      end
  end.

Lemma eqb_false (a b : string) : a <> b -> String.eqb a b = false.
Proof. apply String.eqb_neq. Qed.

(** The common steps pass for the owner of the record that sends an mp4
    file: the record has been read and nothing else has happened. *)
Lemma videoPreamble_pass L cfg r st videoID userID video form f :
  authenticated L cfg r videoID userID ->
  db st !! videoID = Some video ->
  UserID video = userID ->
  MultipartForm r = Some form ->
  form !! "video" = Some f ->
  ContentType f <> "" ->
  ParseMediaType L (ContentType f) = Some "video/mp4" ->
  videoPreamble L cfg r st
  = (Next (video, f, "video/mp4"), emit (DBGetVideo videoID) st).
Proof.
  intros (Hid & token & Htok & Hjwt) Hget Hown Hform Hfile Hct Hmt.
  apply eqb_false in Hct. apply String.eqb_eq in Hown.
  unfold videoPreamble. hunfold. hrun. reflexivity.
Qed.

(** Conversely, when the common steps pass, the request is authenticated,
    by the owner, and carries an mp4 file. *)
Lemma videoPreamble_inv L cfg r st video f mt st1 :
  videoPreamble L cfg r st = (Next (video, f, mt), st1) ->
  exists videoID form,
    authenticated L cfg r videoID (UserID video)
    /\ db st !! videoID = Some video
    /\ MultipartForm r = Some form
    /\ form !! "video" = Some f
    /\ ParseMediaType L (ContentType f) = Some mt
    /\ mt = "video/mp4"
    /\ st1 = emit (DBGetVideo videoID) st.
Proof.
  unfold videoPreamble. hunfold.
  repeat (hcase; cbn in * ); intros H; try discriminate H.
  injection H as -> -> -> <-.
  repeat match goal with
         | H : negb _ = false |- _ => apply negb_false_iff in H
         | H : String.eqb _ _ = true |- _ => apply String.eqb_eq in H
         end.
  subst. unfold authenticated. eauto 12.
Qed.

(** When they do not pass, the handler returns: it has written one error
    response with a status of the 4xx class, and has at most read the
    record. *)
Lemma videoPreamble_stops L cfg r st
  (fl : Flow (Video * FormFile * string)) st1 :
  videoPreamble L cfg r st = (fl, st1) ->
  (forall x, fl <> Next x) ->
  fl = Return
  /\ db st1 = db st /\ disk st1 = disk st /\ objects st1 = objects st
  /\ keys (trace st1) = keys (trace st)
  /\ updates (trace st1) = updates (trace st)
  /\ exists code, statuses (trace st1) = (statuses (trace st) ++ [code])%list
                  /\ 400 <= code < 500.
Proof.
  unfold videoPreamble. hunfold.
  repeat (hcase; cbn in * ); intros H Hn; injection H as <- <-;
    try (exfalso; eapply Hn; reflexivity);
    rewrite ?statuses_emit, ?keys_emit, ?updates_emit, ?app_nil_r;
    cbn; rewrite ?statuses_emit, ?keys_emit, ?updates_emit, ?app_nil_r;
    repeat split; eexists; (split; [reflexivity|]);
    unfold StatusBadRequest, StatusUnauthorized, StatusNotFound; lia.
Qed.

(** ** The thumbnail handlers *)

Section Thumbnails.

(** The request names the record [videoID] and carries a valid credential
    of the principal [userID]. *)
Context (L : Lib) (cfg : apiConfig) (env : Env) (r : Request) (st : State)
  (videoID userID : UUID).
Hypothesis Hauth : authenticated L cfg r videoID userID.


(** C2.  What the thumbnail handlers do when the form has no [thumbnail]
    file: they write the 400 response and go on, into the call through
    the nil file, which panics.  The video handlers return at the same
    point. *)
Theorem C2_missing_thumbnail_file_goes_on form :
  MultipartForm r = Some form ->
  form !! "thumbnail" = None ->
  serve (ThumbnailDisk.handlerUploadThumbnail L cfg env r) st
  = (Panicked,
     emit (RespondError StatusBadRequest "Couldn't parse thumbnail") st)
  /\ serve (ThumbnailDataURL.handlerUploadThumbnail L cfg env r) st
     = (Panicked,
        emit (RespondError StatusBadRequest "Couldn't parse thumbnail") st).
Proof.
  intros Hform Hfile.
  pose proof Hauth as (Hid & token & Htok & Hjwt).
  split.
  - unfold ThumbnailDisk.handlerUploadThumbnail. hunfold. hrun. reflexivity.
  - unfold ThumbnailDataURL.handlerUploadThumbnail. hunfold. hrun.
    reflexivity.
Qed.

(** The sibling path: a video upload without the [video] file gets the 400
    response and the handler returns. *)
Lemma missing_video_file_returns video form :
  db st !! videoID = Some video ->
  UserID video = userID ->
  MultipartForm r = Some form ->
  form !! "video" = None ->
  let stopped :=
    (Finished,
     emit (RespondError StatusBadRequest "Missing 'video' file in form data")
       (emit (DBGetVideo videoID) st)) in
  serve (VideoDirect.handlerUploadVideo L cfg env r) st = stopped
  /\ serve (VideoOriented.handlerUploadVideo L cfg env r) st = stopped
  /\ serve (VideoPresigned.handlerUploadVideo L cfg env r) st = stopped.
Proof.
  intros Hget Hown Hform Hfile stopped.
  pose proof Hauth as (Hid & token & Htok & Hjwt).
  apply String.eqb_eq in Hown.
  assert (Hpre : videoPreamble L cfg r st
                 = (Return,
                    emit (RespondError StatusBadRequest
                            "Missing 'video' file in form data")
                      (emit (DBGetVideo videoID) st))).
  { unfold videoPreamble. hunfold. hrun. reflexivity. }
  unfold VideoDirect.handlerUploadVideo, VideoOriented.handlerUploadVideo,
    VideoPresigned.handlerUploadVideo, serve.
  rewrite !(bind_Return _ _ _ _ Hpre). auto.
Qed.

(** C5.  What the handlers answer when there is no record of the
    identifier: the video handlers 404, the thumbnail handlers (once the
    payload has passed their earlier steps) 500. *)
Theorem C5_lookup_failure_status :
  db st !! videoID = None ->
  (let notFound :=
     (Finished,
      emit (RespondError StatusNotFound "Couldn't find video")
        (emit (DBGetVideo videoID) st)) in
   serve (VideoDirect.handlerUploadVideo L cfg env r) st = notFound
   /\ serve (VideoOriented.handlerUploadVideo L cfg env r) st = notFound
   /\ serve (VideoPresigned.handlerUploadVideo L cfg env r) st = notFound)
  /\ (forall form f,
        MultipartForm r = Some form ->
        form !! "thumbnail" = Some f ->
        ContentType f <> "" ->
        (io_ReadAll_fails env = false ->
         serve (ThumbnailDataURL.handlerUploadThumbnail L cfg env r) st
         = (Finished,
            emit (RespondError StatusInternalServerError "Couldn't find video")
              (emit (DBGetVideo videoID) st)))
        /\ (forall mt,
              ParseMediaType L (ContentType f) = Some mt ->
              mt = "image/jpeg" \/ mt = "image/png" ->
              os_Create_fails env = false ->
              io_Copy_stops env = None ->
              statuses
                (trace
                   (snd (serve
                           (ThumbnailDisk.handlerUploadThumbnail L cfg env r)
                           st)))
              = (statuses (trace st) ++ [StatusInternalServerError])%list)).
Proof.
  intros Hget.
  pose proof Hauth as (Hid & token & Htok & Hjwt).
  split.
  - assert (Hpre : videoPreamble L cfg r st
                   = (Return,
                      emit (RespondError StatusNotFound "Couldn't find video")
                        (emit (DBGetVideo videoID) st))).
    { unfold videoPreamble. hunfold. hrun. reflexivity. }
    unfold VideoDirect.handlerUploadVideo, VideoOriented.handlerUploadVideo,
      VideoPresigned.handlerUploadVideo, serve.
    rewrite !(bind_Return _ _ _ _ Hpre). auto.
  - intros form f Hform Hfile Hct. apply eqb_false in Hct. split.
    + intros Hread.
      unfold ThumbnailDataURL.handlerUploadThumbnail. hunfold. hrun.
      reflexivity.
    + intros mt Hmt Hok Hcreate Hcopy.
      unfold ThumbnailDisk.handlerUploadThumbnail. hunfold. hrun.
      destruct Hok as [-> | ->]; hrun;
        unfold statuses; rewrite !omap_app; cbn;
        rewrite ?app_nil_r; reflexivity.
Qed.

(** C8 (as amended).  The principal is not the owner of the record.  The
    video handlers answer 401 whatever the payload is, having only read
    the record.  The thumbnail handlers check the owner after the payload:
    they leave the metadata store as it was whatever the payload and the
    environment are, and they answer 401 once the payload has passed
    their earlier steps. *)
Theorem C8_non_owner video :
  db st !! videoID = Some video ->
  UserID video <> userID ->
  (let denied :=
     (Finished,
      emit (RespondError StatusUnauthorized
              "Not authorized to modify this video")
        (emit (DBGetVideo videoID) st)) in
   serve (VideoDirect.handlerUploadVideo L cfg env r) st = denied
   /\ serve (VideoOriented.handlerUploadVideo L cfg env r) st = denied
   /\ serve (VideoPresigned.handlerUploadVideo L cfg env r) st = denied)
  /\ db (snd (serve (ThumbnailDisk.handlerUploadThumbnail L cfg env r) st))
     = db st
  /\ db (snd (serve (ThumbnailDataURL.handlerUploadThumbnail L cfg env r) st))
     = db st
  /\ (forall form f,
        MultipartForm r = Some form ->
        form !! "thumbnail" = Some f ->
        ContentType f <> "" ->
        (io_ReadAll_fails env = false ->
         serve (ThumbnailDataURL.handlerUploadThumbnail L cfg env r) st
         = (Finished,
            emit (RespondError StatusUnauthorized
                    "Not authorized to update this video")
              (emit (DBGetVideo videoID) st)))
        /\ (forall mt,
              ParseMediaType L (ContentType f) = Some mt ->
              mt = "image/jpeg" \/ mt = "image/png" ->
              os_Create_fails env = false ->
              io_Copy_stops env = None ->
              statuses
                (trace
                   (snd (serve
                           (ThumbnailDisk.handlerUploadThumbnail L cfg env r)
                           st)))
              = (statuses (trace st) ++ [StatusUnauthorized])%list)).
Proof.
  intros Hget Hown. apply eqb_false in Hown.
  pose proof Hauth as (Hid & token & Htok & Hjwt).
  split; [|split; [|split]].
  - assert (Hpre : videoPreamble L cfg r st
                   = (Return,
                      emit (RespondError StatusUnauthorized
                              "Not authorized to modify this video")
                        (emit (DBGetVideo videoID) st))).
    { unfold videoPreamble. hunfold. hrun. reflexivity. }
    unfold VideoDirect.handlerUploadVideo, VideoOriented.handlerUploadVideo,
      VideoPresigned.handlerUploadVideo, serve.
    rewrite !(bind_Return _ _ _ _ Hpre). auto.
  - unfold ThumbnailDisk.handlerUploadThumbnail. hunfold. hrun.
    repeat (hcase; hrun); reflexivity.
  - unfold ThumbnailDataURL.handlerUploadThumbnail. hunfold. hrun.
    repeat (hcase; hrun); reflexivity.
  - intros form f Hform Hfile Hct. apply eqb_false in Hct. split.
    + intros Hread.
      unfold ThumbnailDataURL.handlerUploadThumbnail. hunfold. hrun.
      reflexivity.
    + intros mt Hmt Hok Hcreate Hcopy.
      unfold ThumbnailDisk.handlerUploadThumbnail. hunfold. hrun.
      destruct Hok as [-> | ->]; hrun;
        unfold statuses; rewrite !omap_app; cbn;
        rewrite ?app_nil_r; reflexivity.
Qed.

(** C10.  In the disk-backed thumbnail handler the file is created and
    written before the record is read: when the record is missing or
    belongs to another principal, the request is rejected, the metadata
    store is as it was, and the uploaded bytes are on the disk at the
    derived path. *)
Theorem C10_thumbnail_written_before_checks form f mt :
  MultipartForm r = Some form ->
  form !! "thumbnail" = Some f ->
  ContentType f <> "" ->
  ParseMediaType L (ContentType f) = Some mt ->
  mt = "image/jpeg" \/ mt = "image/png" ->
  os_Create_fails env = false ->
  io_Copy_stops env = None ->
  let path := getAssetDiskPath L cfg (getAssetPath L videoID (ContentType f)) in
  let result := serve (ThumbnailDisk.handlerUploadThumbnail L cfg env r) st in
  (db st !! videoID = None ->
   fst result = Finished
   /\ trace (snd result)
      = (trace st
         ++ [FileCreate path; FileWrite path; DBGetVideo videoID;
             RespondError StatusInternalServerError "Couldn't find video"])%list
   /\ disk (snd result) !! path = Some (content f)
   /\ db (snd result) = db st)
  /\ (forall video,
        db st !! videoID = Some video ->
        UserID video <> userID ->
        fst result = Finished
        /\ trace (snd result)
           = (trace st
              ++ [FileCreate path; FileWrite path; DBGetVideo videoID;
                  RespondError StatusUnauthorized
                    "Not authorized to update this video"])%list
        /\ disk (snd result) !! path = Some (content f)
        /\ db (snd result) = db st).
Proof.
  intros Hform Hfile Hct Hmt Hok Hcreate Hcopy path result.
  pose proof Hauth as (Hid & token & Htok & Hjwt).
  apply eqb_false in Hct.
  assert (Hallow : negb (String.eqb mt "image/jpeg")
                   && negb (String.eqb mt "image/png") = false)
    by (destruct Hok as [-> | ->]; reflexivity).
  subst result.
  unfold ThumbnailDisk.handlerUploadThumbnail. hunfold. hrun. fold path.
  split.
  - intros Hget. hrun. rewrite <- !app_assoc. cbn.
    repeat split. apply lookup_insert_eq.
  - intros video Hget Hown. apply eqb_false in Hown. hrun.
    rewrite <- !app_assoc. cbn.
    repeat split. apply lookup_insert_eq.
Qed.

End Thumbnails.

(** ** The video pipeline *)

Arguments orientation : simpl never.
Arguments itoa : simpl never.
Arguments hex : simpl never.
Arguments Ext : simpl never.

(** The ratio that the probe gives is read back by the handler as the
    width and the height that went into it. *)
Lemma orientation_ratio landscape portrait other w h :
  minInt <= w <= maxInt ->
  minInt <= h <= maxInt ->
  orientation landscape portrait other (itoa w +:+ ":" +:+ itoa h)
  = if h <? w then landscape else if w <? h then portrait else other.
Proof.
  intros Hw Hh. unfold orientation.
  change (":" +:+ itoa h) with (String ":" (itoa h)).
  rewrite Split_join by apply itoa_no_colon.
  rewrite !Atoi_itoa by assumption. reflexivity.
Qed.

Lemma getVideoAspectRatio_streams L env path st bytes w h more :
  filepath_Abs L path = Some path ->
  disk st !! path = Some bytes ->
  ffprobe env (Some bytes) = ProbeStreams ((w, h) :: more) ->
  getVideoAspectRatio L env path st
  = (Next (if (w =? 0) || (h =? 0) then None
           else Some (itoa w +:+ ":" +:+ itoa h)),
     emit (RunProbe path) st).
Proof.
  intros Habs Hfile Hprobe. unfold getVideoAspectRatio.
  rewrite Habs, Hfile, Hprobe.
  destruct ((w =? 0) || (h =? 0)); reflexivity.
Qed.

Lemma zero_dimension w h : w = 0 \/ h = 0 -> (w =? 0) || (h =? 0) = true.
Proof. intros [-> | ->]; [reflexivity|apply orb_true_r]. Qed.

Lemma nonzero_dimension w h : w <> 0 -> h <> 0 -> (w =? 0) || (h =? 0) = false.
Proof.
  intros Hw Hh. apply Z.eqb_neq in Hw, Hh. rewrite Hw, Hh. reflexivity.
Qed.

(** Normal form of the projections of a trace that is the trace before
    followed by known events. *)
Ltac tnorm :=
  cbn; rewrite <- ?app_assoc; cbn;
  unfold statuses, keys, updates; rewrite ?omap_app; cbn;
  rewrite ?app_nil_r.

(** Running a video handler after its common steps have passed. *)
Ltac vstart Hpre :=
  unfold VideoDirect.handlerUploadVideo, VideoOriented.handlerUploadVideo,
    VideoPresigned.handlerUploadVideo, serve;
  rewrite (bind_Next _ _ _ _ _ Hpre); hunfold; hrun.

Lemma append_neq s c t : s <> s +:+ String c t.
Proof.
  induction s as [|x s IH]; simpl; [discriminate|].
  intros H. injection H as H. exact (IH H).
Qed.

Section Staged.

(** A video upload has passed the common steps of the handler, which read
    the record [videoID]; the temporary file [tmp] has been created under
    an absolute name, the upload has been copied to it, and the probe sees
    a first stream of [w] by [h] in it. *)
Context (L : Lib) (cfg : apiConfig) (env : Env) (r : Request) (st : State)
  (videoID : UUID) (video : Video) (f : FormFile) (mt : string)
  (tmp : string) (w h : Z) (more : list (Z * Z)) (part : string).
Hypothesis Hpre :
  videoPreamble L cfg r st
  = (Next (video, f, mt), emit (DBGetVideo videoID) st).
Hypothesis Htmp : os_CreateTemp_name env = Some tmp.
Hypothesis Hcopy : io_Copy_stops env = None.
Hypothesis Hseek : Seek_fails env = false.
Hypothesis Habs : filepath_Abs L tmp = Some tmp.
Hypothesis Hprobe :
  ffprobe env (Some (content f)) = ProbeStreams ((w, h) :: more).

Lemma probe_staged st0 :
  disk st0 !! tmp = Some (content f) ->
  getVideoAspectRatio L env tmp st0
  = (Next (if (w =? 0) || (h =? 0) then None
           else Some (itoa w +:+ ":" +:+ itoa h)),
     emit (RunProbe tmp) st0).
Proof.
  intros Hfile. exact (getVideoAspectRatio_streams _ _ _ _ _ _ _ _
                         Habs Hfile Hprobe).
Qed.

(** C3 (as amended).  A video upload has passed the common steps and has
    been staged, and the probe sees a first stream of [w] by [h].  With a
    zero width or height the two handlers that probe answer 500 and put no
    object.  Otherwise the key that is put is the orientation prefix, the
    random name and the extension: the prefix is [landscape], [portrait]
    or [other] by the strict comparison of [w] and [h], followed by [/] in
    the earlier handler and by [-] in the one that remuxes and presigns.
    The handler that does not probe puts the name without a prefix. *)
Theorem C3_orientation_prefix :
  minInt <= w <= maxInt ->
  minInt <= h <= maxInt ->
  let name := hex (uuid_New env) +:+ Ext (Filename f) in
  let direct :=
    trace (snd (serve (VideoDirect.handlerUploadVideo L cfg env r) st)) in
  let oriented :=
    trace (snd (serve (VideoOriented.handlerUploadVideo L cfg env r) st)) in
  let presigned :=
    trace (snd (serve (VideoPresigned.handlerUploadVideo L cfg env r) st)) in
  keys direct = (keys (trace st) ++ [name])%list
  /\ (w = 0 \/ h = 0 ->
      statuses oriented
      = (statuses (trace st) ++ [StatusInternalServerError])%list
      /\ keys oriented = keys (trace st)
      /\ statuses presigned
         = (statuses (trace st) ++ [StatusInternalServerError])%list
      /\ keys presigned = keys (trace st))
  /\ (w <> 0 -> h <> 0 ->
      keys oriented
      = (keys (trace st)
         ++ [(if h <? w then "landscape/"
              else if w <? h then "portrait/" else "other/") +:+ name])%list
      /\ forall out,
          ffmpeg env (Some (content f)) = RemuxDone out ->
          os_Open_fails env = false ->
          keys presigned
          = (keys (trace st)
             ++ [(if h <? w then "landscape-"
                  else if w <? h then "portrait-" else "other-")
                 +:+ name])%list).
Proof.
  intros Hw Hh name direct oriented presigned.
  split; [|split].
  - subst direct. vstart Hpre.
    destruct (PutObject_fails env); hrun; [tnorm; reflexivity|].
    destruct (UpdateVideo_fails env); hrun; tnorm; reflexivity.
  - intros Hzero. apply zero_dimension in Hzero.
    subst oriented presigned. repeat split.
    all: vstart Hpre.
    all: rewrite probe_staged by apply lookup_insert_eq.
    all: rewrite Hzero; tnorm; reflexivity.
  - intros Hw0 Hh0. pose proof (nonzero_dimension _ _ Hw0 Hh0) as Hnz.
    subst oriented presigned. split.
    + vstart Hpre. rewrite probe_staged by apply lookup_insert_eq.
      rewrite Hnz. hrun. rewrite orientation_ratio by assumption.
      destruct (PutObject_fails env); hrun; [tnorm; reflexivity|].
      destruct (UpdateVideo_fails env); hrun; tnorm; reflexivity.
    + intros out Hremux Hopen.
      vstart Hpre. rewrite probe_staged by apply lookup_insert_eq.
      rewrite Hnz. hrun. rewrite orientation_ratio by assumption.
      unfold processVideoForFastStart. rewrite Habs. hrun.
      rewrite lookup_insert_eq, Hremux. hrun.
      rewrite lookup_insert_eq. hrun.
      destruct (PutObject_fails env); hrun; [tnorm; reflexivity|].
      destruct (UpdateVideo_fails env); hrun; [tnorm; reflexivity|].
      unfold dbVideoToSignedVideo. hunfold. cbn.
      repeat (hcase; hrun); tnorm; reflexivity.
Qed.

(** *** Temporary files *)

(** The staging file is gone when a video handler ends, however it ends
    after the file was created. *)
Lemma staging_file_removed :
  disk (snd (serve (VideoDirect.handlerUploadVideo L cfg env r) st)) !! tmp
  = None
  /\ disk (snd (serve (VideoOriented.handlerUploadVideo L cfg env r) st))
     !! tmp = None
  /\ disk (snd (serve (VideoPresigned.handlerUploadVideo L cfg env r) st))
     !! tmp = None.
Proof.
  assert (Hdefer : forall (rest : Handler unit) st0,
             disk (snd (serve (defer (os_Remove tmp) rest) st0)) !! tmp = None).
  { intros rest st0. unfold serve, defer.
    destruct (rest st0) as [[[]| |] st2]; cbn; apply lookup_delete_eq. }
  assert (Hcreate : forall st0,
             orFailM (os_CreateTemp env) StatusInternalServerError
               "Failed to create temporary file" st0
             = (Next tmp,
                emit (FileCreate tmp)
                  (setDisk (<[tmp := ""]> (disk st0)) st0))).
  { intros st0. hunfold. rewrite Htmp. reflexivity. }
  unfold VideoDirect.handlerUploadVideo, VideoOriented.handlerUploadVideo,
    VideoPresigned.handlerUploadVideo.
  repeat split.
  all: unfold serve; rewrite (bind_Next _ _ _ _ _ Hpre); cbv beta iota;
    rewrite (bind_Next _ _ _ _ _ (Hcreate _)); apply Hdefer.
Qed.

(** The remuxed copy is gone as well when [ffmpeg] ran to its end,
    whatever happens to the upload after that. *)
Lemma remuxed_file_removed out :
  w <> 0 -> h <> 0 ->
  ffmpeg env (Some (content f)) = RemuxDone out ->
  disk (snd (serve (VideoPresigned.handlerUploadVideo L cfg env r) st))
  !! (tmp +:+ ".processing") = None.
Proof.
  intros Hw Hh Hremux.
  pose proof (nonzero_dimension _ _ Hw Hh) as Hnz.
  vstart Hpre. rewrite probe_staged by apply lookup_insert_eq.
  rewrite Hnz. hrun.
  unfold processVideoForFastStart. rewrite Habs. hrun.
  rewrite lookup_insert_eq, Hremux. hrun.
  unfold dbVideoToSignedVideo. hunfold.
  repeat (hcase; hrun).
  all: rewrite lookup_delete_ne by apply append_neq.
  all: apply lookup_delete_eq.
Qed.

(** C6.  What is left when [ffmpeg] gives up after it has written a part
    of its output: the handler answers 500 and removes the staging file;
    the [.processing] file stays on the disk, and nothing in the trace
    removes it. *)
Theorem C6_remux_failure_leaves_file :
  w <> 0 -> h <> 0 ->
  ffmpeg env (Some (content f)) = RemuxFailed (Some part) ->
  let result := serve (VideoPresigned.handlerUploadVideo L cfg env r) st in
  fst result = Finished
  /\ trace (snd result)
     = (trace st
        ++ [DBGetVideo videoID; FileCreate tmp; FileWrite tmp; RunProbe tmp;
            RunRemux tmp (tmp +:+ ".processing");
            RespondError StatusInternalServerError "Failed to process video";
            FileRemove tmp])%list
  /\ disk (snd result) !! tmp = None
  /\ disk (snd result) !! (tmp +:+ ".processing") = Some part.
Proof.
  intros Hw Hh Hremux result.
  pose proof (nonzero_dimension _ _ Hw Hh) as Hnz.
  subst result. vstart Hpre. rewrite probe_staged by apply lookup_insert_eq.
  rewrite Hnz. hrun.
  unfold processVideoForFastStart. rewrite Habs. hrun.
  rewrite lookup_insert_eq, Hremux. hrun.
  rewrite <- !app_assoc. cbn.
  repeat split.
  - apply lookup_delete_eq.
  - rewrite lookup_delete_ne by apply append_neq. apply lookup_insert_eq.
Qed.

End Staged.

(** ** Signing on read *)

(** Two pieces come only from two strings free of the separator. *)
Lemma Split_join_inv a b sep x y :
  Split (a +:+ String sep b) sep = [x; y] ->
  x = a /\ y = b /\ has sep a = false /\ has sep b = false.
Proof.
  intros H.
  destruct (has sep a || has sep b) eqn:E.
  - apply Split_join_more in E. rewrite H in E. simpl in E. lia.
  - apply orb_false_iff in E as [Ha Hb].
    rewrite (Split_join _ _ _ Ha Hb) in H. injection H as <- <-. auto.
Qed.

Lemma append_nonempty a c b : String.eqb (a +:+ String c b) "" = false.
Proof. destruct a; reflexivity. Qed.

Lemma orientation_cases landscape portrait other ratio :
  orientation landscape portrait other ratio = landscape
  \/ orientation landscape portrait other ratio = portrait
  \/ orientation landscape portrait other ratio = other.
Proof.
  unfold orientation.
  destruct (Split ratio ":") as [|p0 [|p1 [|p2 ps]]]; auto.
  destruct (fst (Atoi p1) <? fst (Atoi p0)); auto.
  destruct (fst (Atoi p0) <? fst (Atoi p1)); auto.
Qed.

(** A record stores the composite of a bucket and a key.  When neither
    has a comma, [dbVideoToSignedVideo] presigns exactly that bucket and
    that key, for one hour.  When one of them has a comma, it gives an
    error and presigns nothing.  The key of an upload is free of commas
    exactly when the extension of the uploaded file name is. *)
Lemma composite_round_trip env video bucket key st :
  let stored := setVideoURL video (bucket +:+ "," +:+ key) in
  (has "," bucket = false ->
   has "," key = false ->
   dbVideoToSignedVideo env stored st
   = (Next match PresignGetObject env bucket key Hour with
           | Some url => (setVideoURL video url, false)
           | None => (stored, true)
           end,
      emit (S3Presign bucket key Hour) st))
  /\ (has "," bucket || has "," key = true ->
      dbVideoToSignedVideo env stored st = (Next (stored, true), st))
  /\ (forall ratio u name,
        has "," (orientation "landscape-" "portrait-" "other-" ratio
                 +:+ hex u +:+ Ext name)
        = has "," (Ext name)).
Proof.
  intros stored. split; [|split].
  - intros Hb Hk. unfold dbVideoToSignedVideo, stored.
    cbn [VideoURL setVideoURL].
    change ("," +:+ key) with (String "," key).
    rewrite append_nonempty, (Split_join _ _ _ Hb Hk).
    hunfold. destruct (PresignGetObject env bucket key Hour); reflexivity.
  - intros Hc. unfold dbVideoToSignedVideo, stored.
    cbn [VideoURL setVideoURL].
    change ("," +:+ key) with (String "," key).
    rewrite append_nonempty.
    pose proof (Split_join_more _ _ _ Hc) as Hlen.
    destruct (Split (bucket +:+ String "," key) ",") as [|p0 [|p1 [|p2 ps]]];
      simpl in Hlen; try lia; reflexivity.
  - intros ratio u name. rewrite !has_app, hex_no_comma.
    destruct (orientation_cases "landscape-" "portrait-" "other-" ratio)
      as [-> | [-> | ->]]; reflexivity.
Qed.

(** C9.  [dbVideoToSignedVideo] gives the record back as it is, without an
    error, when the record has no video URL or an empty one; it gives the
    record back with an error, and presigns nothing, when the URL is not
    empty and does not split at commas into exactly two pieces, as the
    direct https URL of an object whose bucket, region and key have no
    comma. *)
Theorem C9_unsigned_records env video st :
  (VideoURL video = None \/ VideoURL video = Some "" ->
   dbVideoToSignedVideo env video st = (Next (video, false), st))
  /\ (forall u,
        VideoURL video = Some u ->
        u <> "" ->
        length (Split u ",") <> 2%nat ->
        dbVideoToSignedVideo env video st = (Next (video, true), st))
  /\ (forall bucket region key,
        has "," bucket = false ->
        has "," region = false ->
        has "," key = false ->
        VideoURL video
        = Some ("https://" +:+ bucket +:+ ".s3." +:+ region
                +:+ ".amazonaws.com/" +:+ key) ->
        dbVideoToSignedVideo env video st = (Next (video, true), st)).
Proof.
  assert (Hparts : forall u,
             VideoURL video = Some u ->
             u <> "" ->
             length (Split u ",") <> 2%nat ->
             dbVideoToSignedVideo env video st = (Next (video, true), st)).
  { intros u Hu Hne Hlen. apply eqb_false in Hne.
    unfold dbVideoToSignedVideo. rewrite Hu, Hne.
    destruct (Split u ",") as [|p0 [|p1 [|p2 ps]]];
      simpl in Hlen; try congruence; reflexivity. }
  split; [|split].
  - intros [H | H]; unfold dbVideoToSignedVideo; rewrite H; reflexivity.
  - exact Hparts.
  - intros bucket region key Hb Hr Hk Hu.
    apply (Hparts _ Hu); [discriminate|].
    rewrite Split_no_sep; [simpl; lia|].
    rewrite !has_app, Hb, Hr, Hk. reflexivity.
Qed.

Lemma composite_nonempty bucket key :
  String.eqb (bucket +:+ "," +:+ key) "" = false.
Proof. apply append_nonempty. Qed.

Lemma composite_inv bucket key x y :
  Split (bucket +:+ "," +:+ key) "," = [x; y] -> x = bucket /\ y = key.
Proof.
  intros H. apply Split_join_inv in H as (-> & -> & _). auto.
Qed.

Section Unresolved.

(** A video upload has passed the common steps of the handler that
    presigns and every later step up to the update of the record: the
    file has been staged under an absolute name, the probe sees a first
    stream with a width and a height that are not zero, [ffmpeg] has
    written its output, and the bucket and the metadata store take what
    they are given. *)
Context (L : Lib) (cfg : apiConfig) (env : Env) (r : Request) (st : State)
  (videoID : UUID) (video : Video) (f : FormFile) (mt : string)
  (tmp : string) (w h : Z) (more : list (Z * Z)) (out : string).
Hypothesis Hpre :
  videoPreamble L cfg r st
  = (Next (video, f, mt), emit (DBGetVideo videoID) st).
Hypothesis Htmp : os_CreateTemp_name env = Some tmp.
Hypothesis Hcopy : io_Copy_stops env = None.
Hypothesis Hseek : Seek_fails env = false.
Hypothesis Habs : filepath_Abs L tmp = Some tmp.
Hypothesis Hprobe :
  ffprobe env (Some (content f)) = ProbeStreams ((w, h) :: more).
Hypothesis Hw : w <> 0.
Hypothesis Hh : h <> 0.
Hypothesis Hremux : ffmpeg env (Some (content f)) = RemuxDone out.
Hypothesis Hopen : os_Open_fails env = false.
Hypothesis Hput : PutObject_fails env = false.
Hypothesis Hupd : UpdateVideo_fails env = false.

(** C4.  The round trip that the handler attempts fails for a file name
    whose extension has a comma.  The key ends in the extension as the
    client sent it, so the object is put under a key with a comma and the
    record is updated with the composite of the bucket and that key; the
    handler then resolves this record with [dbVideoToSignedVideo], which
    gives an error, and answers 500 without presigning anything.  The
    record that is left in the store resolves in no state: the bucket and
    the key do not come back. *)
Theorem C4_comma_in_extension_breaks_signing :
  has "," (Ext (Filename f)) = true ->
  let st' :=
    snd (serve (VideoPresigned.handlerUploadVideo L cfg env r) st) in
  exists prefix,
    let key := prefix +:+ hex (uuid_New env) +:+ Ext (Filename f) in
    let stored := setVideoURL video (s3Bucket cfg +:+ "," +:+ key) in
    In prefix ["landscape-"; "portrait-"; "other-"]
    /\ objects st' = <[(s3Bucket cfg, key) := (out, mt)]> (objects st)
    /\ db st' = <[ID video := stored]> (db st)
    /\ trace st'
       = (trace st
          ++ [DBGetVideo videoID; FileCreate tmp; FileWrite tmp;
              RunProbe tmp; RunRemux tmp (tmp +:+ ".processing");
              S3Put (s3Bucket cfg) key mt; DBUpdateVideo stored;
              RespondError StatusInternalServerError
                "Failed to sign video URL";
              FileRemove (tmp +:+ ".processing"); FileRemove tmp])%list
    /\ forall st0,
         dbVideoToSignedVideo env stored st0 = (Next (stored, true), st0).
Proof.
  intros Hext st'. subst st'.
  assert (Hratio : forall st0,
             disk st0 !! tmp = Some (content f) ->
             getVideoAspectRatio L env tmp st0
             = (Next (Some (itoa w +:+ ":" +:+ itoa h)),
                emit (RunProbe tmp) st0)).
  { intros st0 Hfile.
    rewrite (getVideoAspectRatio_streams _ _ _ _ _ _ _ _ Habs Hfile Hprobe).
    rewrite (nonzero_dimension _ _ Hw Hh). reflexivity. }
  pose proof (orientation_cases "landscape-" "portrait-" "other-"
                (itoa w +:+ ":" +:+ itoa h)) as Hcases.
  set (prefix := orientation "landscape-" "portrait-" "other-"
                   (itoa w +:+ ":" +:+ itoa h)) in *.
  assert (Hkey : has "," (s3Bucket cfg)
                 || has "," (prefix +:+ hex (uuid_New env)
                             +:+ Ext (Filename f)) = true).
  { rewrite !has_app, Hext, !orb_true_r. reflexivity. }
  exists prefix. cbv zeta.
  split; [destruct Hcases as [-> | [-> | ->]]; simpl; auto|].
  vstart Hpre.
  rewrite Hratio by apply lookup_insert_eq.
  hrun. fold prefix. unfold processVideoForFastStart. rewrite Habs. hrun.
  rewrite lookup_insert_eq, Hremux. hrun.
  rewrite lookup_insert_eq. hrun.
  rewrite composite_nonempty.
  pose proof (Split_join_more _ _ _ Hkey) as Hlen.
  change (String "," ?k) with ("," +:+ k) in Hlen.
  destruct (Split (s3Bucket cfg +:+ "," +:+ prefix +:+ hex (uuid_New env)
                   +:+ Ext (Filename f)) ",") as [|p0 [|p1 [|p2 ps]]];
    simpl in Hlen; try lia.
  cbn. rewrite <- !app_assoc. cbn.
  repeat split.
Qed.

End Unresolved.

(** C7.  A video upload to the handler that presigns got the response
    200.  Then the handler updated the record once, with the composite of
    the bucket and the key as its video URL, and that is what the metadata
    store holds; after that it presigned that bucket and key for
    [time.Hour], and the record of the response has the URL that the
    presigner gave. *)
Theorem C7_presigned_response L cfg env r st o st' :
  serve (VideoPresigned.handlerUploadVideo L cfg env r) st = (o, st') ->
  statuses (trace st') = (statuses (trace st) ++ [StatusOK])%list ->
  exists videoID video key url tmp abs,
    let composite := s3Bucket cfg +:+ "," +:+ key in
    trace st'
    = (trace st
       ++ [DBGetVideo videoID; FileCreate tmp; FileWrite tmp; RunProbe abs;
           RunRemux abs (abs +:+ ".processing");
           S3Put (s3Bucket cfg) key "video/mp4";
           DBUpdateVideo (setVideoURL video composite);
           S3Presign (s3Bucket cfg) key Hour;
           RespondJSON StatusOK (setVideoURL video url);
           FileRemove (abs +:+ ".processing"); FileRemove tmp])%list
    /\ db st !! videoID = Some video
    /\ db st' = <[ID video := setVideoURL video composite]> (db st)
    /\ PresignGetObject env (s3Bucket cfg) key Hour = Some url
    /\ o = Finished.
Proof.
  intros Hserve Hstatus.
  unfold VideoPresigned.handlerUploadVideo, serve in Hserve.
  destruct (videoPreamble L cfg r st) as [fl st1] eqn:Hpre.
  destruct fl as [[[video f] mt]| |].
  2,3: exfalso;
    destruct (videoPreamble_stops _ _ _ _ _ _ Hpre ltac:(discriminate))
      as (Hfl & _ & _ & _ & _ & _ & code & Hcode & Hrange);
    try discriminate Hfl;
    rewrite (bind_Return _ _ _ _ Hpre) in Hserve;
    injection Hserve as <- <-;
    rewrite Hcode in Hstatus; apply app_inv_head in Hstatus;
    injection Hstatus as ->; unfold StatusOK in Hrange; lia.
  destruct (videoPreamble_inv _ _ _ _ _ _ _ _ Hpre)
    as (videoID & form & Hauth & Hget & Hform & Hfile & Hmt & -> & ->).
  rewrite (bind_Next _ _ _ _ _ Hpre) in Hserve.
  revert Hserve Hstatus.
  unfold getVideoAspectRatio, processVideoForFastStart, dbVideoToSignedVideo.
  hunfold.
  repeat (hcase; hrun).
  all: intros Hserve; injection Hserve as <- <-.
  all: tnorm.
  all: intros Hstatus; apply app_inv_head in Hstatus;
    try discriminate Hstatus.
  - match goal with
    | H : String.eqb _ "" = true |- _ =>
        rewrite composite_nonempty in H; discriminate H
    end.
  - match goal with
    | H : Split _ "," = [_; _] |- _ =>
        apply composite_inv in H as [-> ->]
    end.
    match goal with
    | Htmp : os_CreateTemp_name env = Some ?tmp,
      Habs : filepath_Abs L ?tmp = Some ?abs,
      Hurl : PresignGetObject env _ ?key Hour = Some ?url |- _ =>
        exists videoID, video, key, url, tmp, abs
    end.
    cbn. auto.
Qed.

(** ** The handlers at work *)



(** C2: the theorem at an upload by the owner of [V1] whose form has a
    [video] field and no [thumbnail] field. *)
Lemma C2_missing_thumbnail_file_goes_on_witness :
  let r := Sample.upload "video" Sample.clip in
  let env := Sample.env 1920 1080 in
  serve (ThumbnailDisk.handlerUploadThumbnail Sample.lib Sample.cfg env r)
    Sample.start
  = (Panicked,
     emit (RespondError StatusBadRequest "Couldn't parse thumbnail")
       Sample.start)
  /\ serve (ThumbnailDataURL.handlerUploadThumbnail Sample.lib Sample.cfg
              env r) Sample.start
     = (Panicked,
        emit (RespondError StatusBadRequest "Couldn't parse thumbnail")
          Sample.start).
Proof.
  intros r env.
  assert (Hauth : authenticated Sample.lib Sample.cfg r "V1" "alice").
  { split; [reflexivity|]. exists "alice.s3cr3t". split; reflexivity. }
  apply (C2_missing_thumbnail_file_goes_on Sample.lib Sample.cfg env r
           Sample.start "V1" "alice" Hauth {[ "video" := Sample.clip ]}).
  - reflexivity.
  - vm_compute. reflexivity.
Defined.

(** C3: the theorem at a video of 1920 by 1080 sent by the owner of
    [V1]. *)
Lemma C3_orientation_prefix_witness :
  let r := Sample.upload "video" Sample.clip in
  let env := Sample.env 1920 1080 in
  keys (trace (snd (serve (VideoOriented.handlerUploadVideo Sample.lib
                             Sample.cfg env r) Sample.start)))
  = ["landscape/" +:+ Sample.newName +:+ ".mp4"]
  /\ keys (trace (snd (serve (VideoPresigned.handlerUploadVideo Sample.lib
                                Sample.cfg env r) Sample.start)))
     = ["landscape-" +:+ Sample.newName +:+ ".mp4"].
Proof.
  intros r env.
  destruct (C3_orientation_prefix Sample.lib Sample.cfg env r Sample.start
              "V1" Sample.V1 Sample.clip "video/mp4"
              "/tmp/tubely-upload-1.mp4" 1920 1080 [])
    as (_ & _ & Hkeys).
  - vm_compute. reflexivity.
  - reflexivity.
  - reflexivity.
  - reflexivity.
  - reflexivity.
  - reflexivity.
  - unfold minInt, maxInt. lia.
  - unfold minInt, maxInt. lia.
  - destruct (Hkeys ltac:(lia) ltac:(lia)) as [Hslash Hdash].
    split; [exact Hslash|]. exact (Hdash "BYTES" eq_refl eq_refl).
Defined.

(** C3, the claim refuted for the earlier of the two handlers that probe:
    a video of 1920 by 1080 gets a key that starts with [landscape/], not
    with [landscape-]. *)
Lemma C3_oriented_handler_uses_slash :
  let r := Sample.upload "video" Sample.clip in
  let st' := snd (serve (VideoOriented.handlerUploadVideo Sample.lib
                           Sample.cfg (Sample.env 1920 1080) r)
                    Sample.start) in
  statuses (trace st') = [StatusOK]
  /\ keys (trace st') = ["landscape/" +:+ Sample.newName +:+ ".mp4"]
  /\ forall key, key ∈ keys (trace st') ->
                 String.prefix "landscape-" key = false.
Proof.
  cbv zeta. split; [|split].
  - vm_compute. reflexivity.
  - vm_compute. reflexivity.
  - intros key Hkey.
    assert (E : keys (trace (snd (serve
                  (VideoOriented.handlerUploadVideo Sample.lib Sample.cfg
                     (Sample.env 1920 1080)
                     (Sample.upload "video" Sample.clip)) Sample.start)))
                = ["landscape/" +:+ Sample.newName +:+ ".mp4"])
      by (vm_compute; reflexivity).
    rewrite E in Hkey. apply list_elem_of_singleton in Hkey. subst key.
    reflexivity.
Qed.

(** C4: the theorem at a video that the owner of [V1] sends under the
    name [clip.mp4,v]. *)
Lemma C4_comma_in_extension_breaks_signing_witness :
  let r := Sample.upload "video" Sample.oddClip in
  let env := Sample.env 1920 1080 in
  let key := "landscape-" +:+ Sample.newName +:+ ".mp4,v" in
  let st' := snd (serve (VideoPresigned.handlerUploadVideo Sample.lib
                           Sample.cfg env r) Sample.start) in
  keys (trace st') = [key]
  /\ objects st' !! ("tubely-private", key) = Some ("BYTES", "video/mp4")
  /\ VideoURL <$> db st' !! "V1" = Some (Some ("tubely-private," +:+ key))
  /\ statuses (trace st') = [StatusInternalServerError]
  /\ forall st,
       dbVideoToSignedVideo env
         (setVideoURL Sample.V1 ("tubely-private," +:+ key)) st
       = (Next (setVideoURL Sample.V1 ("tubely-private," +:+ key), true), st).
Proof.
  intros r env key st'.
  destruct (C4_comma_in_extension_breaks_signing Sample.lib Sample.cfg env r
              Sample.start "V1" Sample.V1 Sample.oddClip "video/mp4"
              "/tmp/tubely-upload-1.mp4" 1920 1080 [] "BYTES")
    as (prefix & Hprefix & Hobjects & Hdb & Htrace & Hresolve).
  - vm_compute. reflexivity.
  - reflexivity.
  - reflexivity.
  - reflexivity.
  - reflexivity.
  - reflexivity.
  - lia.
  - lia.
  - reflexivity.
  - reflexivity.
  - reflexivity.
  - reflexivity.
  - vm_compute. reflexivity.
  - fold st' in Hobjects, Hdb, Htrace.
    cbv zeta in Hobjects, Hdb, Htrace, Hresolve.
    assert (Hp : prefix = "landscape-").
    { assert (E : keys (trace st') = [key]) by (vm_compute; reflexivity).
      rewrite Htrace in E. vm_compute in E.
      destruct Hprefix as [<- | [<- | [<- | []]]];
        [reflexivity | vm_compute in E; discriminate E..]. }
    subst prefix.
    split; [vm_compute; reflexivity|].
    split; [rewrite Hobjects; apply lookup_insert_eq|].
    split; [rewrite Hdb; vm_compute; reflexivity|].
    split; [rewrite Htrace; vm_compute; reflexivity|].
    exact Hresolve.
Defined.

(** C5: the theorem at an upload for [V2], of which there is no record. *)
Lemma C5_lookup_failure_status_witness :
  let r := mkRequest "V2" "Bearer alice.s3cr3t"
             (Some {[ "thumbnail" := Sample.png ]}) in
  let env := Sample.env 1920 1080 in
  serve (VideoPresigned.handlerUploadVideo Sample.lib Sample.cfg env r)
    Sample.start
  = (Finished,
     emit (RespondError StatusNotFound "Couldn't find video")
       (emit (DBGetVideo "V2") Sample.start))
  /\ serve (ThumbnailDataURL.handlerUploadThumbnail Sample.lib Sample.cfg
              env r) Sample.start
     = (Finished,
        emit (RespondError StatusInternalServerError "Couldn't find video")
          (emit (DBGetVideo "V2") Sample.start))
  /\ statuses
       (trace (snd (serve (ThumbnailDisk.handlerUploadThumbnail Sample.lib
                             Sample.cfg env r) Sample.start)))
     = [StatusInternalServerError].
Proof.
  intros r env.
  assert (Hauth : authenticated Sample.lib Sample.cfg r "V2" "alice").
  { split; [reflexivity|]. exists "alice.s3cr3t". split; reflexivity. }
  destruct (C5_lookup_failure_status Sample.lib Sample.cfg env r Sample.start
              "V2" "alice" Hauth) as ((_ & _ & Hvideo) & Hthumb).
  - vm_compute. reflexivity.
  - destruct (Hthumb {[ "thumbnail" := Sample.png ]} Sample.png eq_refl
                ltac:(vm_compute; reflexivity) ltac:(discriminate))
      as [Hdata Hdisk].
    split; [exact Hvideo|]. split; [exact (Hdata eq_refl)|].
    exact (Hdisk "image/png" eq_refl (or_intror eq_refl) eq_refl eq_refl).
Defined.

(** C6: the theorem at an upload by the owner of [V1] during which
    [ffmpeg] gives up after it has written four bytes. *)
Lemma C6_remux_failure_leaves_file_witness :
  let r := Sample.upload "video" Sample.clip in
  let result := serve (VideoPresigned.handlerUploadVideo Sample.lib
                         Sample.cfg (Sample.envRemuxBreaks 1920 1080) r)
                  Sample.start in
  fst result = Finished
  /\ statuses (trace (snd result)) = [StatusInternalServerError]
  /\ disk (snd result) !! "/tmp/tubely-upload-1.mp4" = None
  /\ disk (snd result) !! "/tmp/tubely-upload-1.mp4.processing"
     = Some "ftyp".
Proof.
  intros r result.
  destruct (C6_remux_failure_leaves_file Sample.lib Sample.cfg
              (Sample.envRemuxBreaks 1920 1080) r Sample.start
              "V1" Sample.V1 Sample.clip "video/mp4"
              "/tmp/tubely-upload-1.mp4" 1920 1080 [] "ftyp")
    as (Hend & Htrace & Htmp & Hleft).
  - vm_compute. reflexivity.
  - reflexivity.
  - reflexivity.
  - reflexivity.
  - reflexivity.
  - reflexivity.
  - discriminate.
  - discriminate.
  - reflexivity.
  - split; [exact Hend|]. split; [|split; [exact Htmp|exact Hleft]].
    subst result. rewrite Htrace. reflexivity.
Defined.

(** C7: the theorem at a video of 1920 by 1080 sent by the owner of
    [V1]. *)
Lemma C7_presigned_response_witness :
  let r := Sample.upload "video" Sample.clip in
  let st' := snd (serve (VideoPresigned.handlerUploadVideo Sample.lib
                           Sample.cfg (Sample.env 1920 1080) r)
                    Sample.start) in
  exists videoID video key url tmp abs,
    let composite := s3Bucket Sample.cfg +:+ "," +:+ key in
    trace st'
    = (trace Sample.start
       ++ [DBGetVideo videoID; FileCreate tmp; FileWrite tmp; RunProbe abs;
           RunRemux abs (abs +:+ ".processing");
           S3Put (s3Bucket Sample.cfg) key "video/mp4";
           DBUpdateVideo (setVideoURL video composite);
           S3Presign (s3Bucket Sample.cfg) key Hour;
           RespondJSON StatusOK (setVideoURL video url);
           FileRemove (abs +:+ ".processing"); FileRemove tmp])%list
    /\ db Sample.start !! videoID = Some video
    /\ db st' = <[ID video := setVideoURL video composite]> (db Sample.start)
    /\ PresignGetObject (Sample.env 1920 1080) (s3Bucket Sample.cfg) key Hour
       = Some url
    /\ Finished = Finished.
Proof.
  intros r st'.
  apply (C7_presigned_response Sample.lib Sample.cfg (Sample.env 1920 1080)
           r Sample.start Finished st').
  - vm_compute. reflexivity.
  - vm_compute. reflexivity.
Defined.

(** C8: the theorem at uploads for [V1], the record of [alice], with the
    credential of [bob]. *)
Lemma C8_non_owner_witness :
  let env := Sample.env 1920 1080 in
  serve (VideoPresigned.handlerUploadVideo Sample.lib Sample.cfg env
           (Sample.uploadAs "bob" "video" Sample.notes)) Sample.start
  = (Finished,
     emit (RespondError StatusUnauthorized
             "Not authorized to modify this video")
       (emit (DBGetVideo "V1") Sample.start))
  /\ db (snd (serve (ThumbnailDisk.handlerUploadThumbnail Sample.lib
                       Sample.cfg env
                       (Sample.uploadAs "bob" "video" Sample.notes))
                Sample.start))
     = db Sample.start.
Proof.
  intros env.
  assert (Hauth : authenticated Sample.lib Sample.cfg
                    (Sample.uploadAs "bob" "video" Sample.notes) "V1" "bob").
  { split; [reflexivity|]. exists "bob.s3cr3t". split; reflexivity. }
  destruct (C8_non_owner Sample.lib Sample.cfg env
              (Sample.uploadAs "bob" "video" Sample.notes) Sample.start
              "V1" "bob" Hauth Sample.V1)
    as ((_ & _ & Hvideo) & Hdisk & _).
  - vm_compute. reflexivity.
  - discriminate.
  - split; [exact Hvideo|exact Hdisk].
Defined.

(** C8, the claim refuted for the thumbnail handlers: [bob] sends a text
    file as the thumbnail of [V1], the record of [alice].  The response is
    400, for the file type, not 401. *)
Lemma C8_non_owner_thumbnail_gets_400 :
  let r := Sample.uploadAs "bob" "thumbnail" Sample.notes in
  let st' := snd (serve (ThumbnailDisk.handlerUploadThumbnail Sample.lib
                           Sample.cfg (Sample.env 1920 1080) r)
                    Sample.start) in
  authenticated Sample.lib Sample.cfg r "V1" "bob"
  /\ UserID <$> db Sample.start !! "V1" = Some "alice"
  /\ statuses (trace st') = [StatusBadRequest]
  /\ statuses (trace st') <> [StatusUnauthorized].
Proof.
  cbv zeta. split; [|split; [|split]].
  - split; [reflexivity|]. exists "bob.s3cr3t". split; reflexivity.
  - vm_compute. reflexivity.
  - vm_compute. reflexivity.
  - vm_compute. discriminate.
Qed.

(** C9: the theorem at the record [V1] without a video URL and at the
    same record with the direct URL of an object. *)
Lemma C9_unsigned_records_witness :
  dbVideoToSignedVideo (Sample.env 1920 1080) Sample.V1 Sample.start
  = (Next (Sample.V1, false), Sample.start)
  /\ let direct :=
       setVideoURL Sample.V1
         "https://tubely-private.s3.us-east-2.amazonaws.com/clip.mp4" in
     dbVideoToSignedVideo (Sample.env 1920 1080) direct Sample.start
     = (Next (direct, true), Sample.start).
Proof.
  split.
  - exact (proj1 (C9_unsigned_records (Sample.env 1920 1080) Sample.V1
                    Sample.start) (or_introl eq_refl)).
  - intros direct.
    refine (proj1 (proj2 (C9_unsigned_records (Sample.env 1920 1080) direct
                            Sample.start)) _ eq_refl _ _).
    + discriminate.
    + vm_compute. discriminate.
Defined.

(** C10: the theorem at a PNG thumbnail for [V1], the record of [alice],
    sent with the credential of [bob]. *)
Lemma C10_thumbnail_written_before_checks_witness :
  let r := Sample.uploadAs "bob" "thumbnail" Sample.png in
  let result := serve (ThumbnailDisk.handlerUploadThumbnail Sample.lib
                         Sample.cfg (Sample.env 1920 1080) r)
                  Sample.start in
  fst result = Finished
  /\ trace (snd result)
     = [FileCreate "/srv/tubely/assets/V1.png";
        FileWrite "/srv/tubely/assets/V1.png"; DBGetVideo "V1";
        RespondError StatusUnauthorized "Not authorized to update this video"]
  /\ disk (snd result) !! "/srv/tubely/assets/V1.png" = Some "PNG"
  /\ db (snd result) = db Sample.start.
Proof.
  intros r result.
  assert (Hauth : authenticated Sample.lib Sample.cfg r "V1" "bob").
  { split; [reflexivity|]. exists "bob.s3cr3t". split; reflexivity. }
  destruct (C10_thumbnail_written_before_checks Sample.lib Sample.cfg
              (Sample.env 1920 1080) r Sample.start "V1" "bob" Hauth
              {[ "thumbnail" := Sample.png ]} Sample.png "image/png")
    as (_ & Hother).
  - reflexivity.
  - vm_compute. reflexivity.
  - discriminate.
  - reflexivity.
  - right. reflexivity.
  - reflexivity.
  - reflexivity.
  - exact (Hother Sample.V1 ltac:(vm_compute; reflexivity)
             ltac:(discriminate)).
Defined.

(** ** Every run of a handler *)

Ltac owner_facts :=
  repeat match goal with
         | H : negb _ = false |- _ => apply negb_false_iff in H
         | H : String.eqb _ _ = true |- _ => apply String.eqb_eq in H
         end.

(** The cases of a run, one per path through the handler, each with the
    state in which the path ends. *)
Ltac run_cases :=
  hunfold; repeat (hcase; hrun);
  let Hrun := fresh "Hrun" in
  intros Hrun; injection Hrun as <- <-.

Ltac one_response :=
  tnorm; eexists; (split; [reflexivity|]); simpl; auto 10.

Ltac by_owner :=
  first
    [ left; reflexivity
    | right; owner_facts; subst; do 3 eexists;
      split; [unfold authenticated; eauto 6|];
      split; [eassumption|reflexivity] ].

Ltac ok_or_same :=
  first [left; reflexivity | right; tnorm; reflexivity].

Ltac put_once :=
  first [left; reflexivity | right; owner_facts; subst; eauto].

(** The disk after a run is the disk before it, given that the names of
    the temporary files were free. *)
Ltac disk_restored :=
  intros; apply map_eq; intros k; cbn;
  rewrite ?lookup_delete, ?lookup_insert; repeat case_decide; subst;
  first [reflexivity | symmetry; eauto].

Lemma thumbnail_disk_run L cfg env r st o st' :
  serve (ThumbnailDisk.handlerUploadThumbnail L cfg env r) st = (o, st') ->
  respondsOnce st st'
  /\ ownerOnly L cfg r setThumbnailURL st st'
  /\ (db st' = db st
      \/ statuses (trace st') = (statuses (trace st) ++ [StatusOK])%list)
  /\ objects st' = objects st
  /\ (disk st' = disk st
      \/ exists videoID form f bytes,
           uuid_Parse L (PathValue_videoID r) = Some videoID
           /\ MultipartForm r = Some form
           /\ form !! "thumbnail" = Some f
           /\ disk st'
              = <[getAssetDiskPath L cfg
                    (getAssetPath L videoID (ContentType f)) := bytes]>
                  (disk st)).
Proof.
  unfold respondsOnce, ownerOnly.
  unfold ThumbnailDisk.handlerUploadThumbnail. run_cases.
  all: split; [one_response|].
  all: split; [by_owner|].
  all: split; [ok_or_same|].
  all: split; [reflexivity|].
  all: first [left; reflexivity
             | right; cbn; rewrite ?insert_insert_eq; eauto 10].
Qed.

Lemma thumbnail_data_run L cfg env r st o st' :
  serve (ThumbnailDataURL.handlerUploadThumbnail L cfg env r) st = (o, st') ->
  respondsOnce st st'
  /\ ownerOnly L cfg r setThumbnailURL st st'
  /\ (db st' = db st
      \/ statuses (trace st') = (statuses (trace st) ++ [StatusOK])%list)
  /\ objects st' = objects st
  /\ disk st' = disk st.
Proof.
  unfold respondsOnce, ownerOnly.
  unfold ThumbnailDataURL.handlerUploadThumbnail. run_cases.
  all: split; [one_response|].
  all: split; [by_owner|].
  all: split; [ok_or_same|].
  all: split; reflexivity.
Qed.

Lemma video_direct_run L cfg env r st o st' :
  serve (VideoDirect.handlerUploadVideo L cfg env r) st = (o, st') ->
  respondsOnce st st'
  /\ ownerOnly L cfg r setVideoURL st st'
  /\ (db st' = db st
      \/ statuses (trace st') = (statuses (trace st) ++ [StatusOK])%list)
  /\ putsAtMostOne cfg st st'
  /\ (freshTemp env st -> disk st' = disk st).
Proof.
  unfold respondsOnce, ownerOnly, putsAtMostOne, freshTemp.
  unfold VideoDirect.handlerUploadVideo, videoPreamble. run_cases.
  all: split; [one_response|].
  all: split; [by_owner|].
  all: split; [ok_or_same|].
  all: split; [put_once|].
  all: disk_restored.
Qed.

Lemma video_oriented_run L cfg env r st o st' :
  serve (VideoOriented.handlerUploadVideo L cfg env r) st = (o, st') ->
  respondsOnce st st'
  /\ ownerOnly L cfg r setVideoURL st st'
  /\ (db st' = db st
      \/ statuses (trace st') = (statuses (trace st) ++ [StatusOK])%list)
  /\ putsAtMostOne cfg st st'
  /\ (freshTemp env st -> disk st' = disk st).
Proof.
  unfold respondsOnce, ownerOnly, putsAtMostOne, freshTemp.
  unfold VideoOriented.handlerUploadVideo, videoPreamble,
    getVideoAspectRatio.
  run_cases.
  all: split; [one_response|].
  all: split; [by_owner|].
  all: split; [ok_or_same|].
  all: split; [put_once|].
  all: disk_restored.
Qed.

Lemma video_presigned_run L cfg env r st o st' :
  serve (VideoPresigned.handlerUploadVideo L cfg env r) st = (o, st') ->
  respondsOnce st st'
  /\ ownerOnly L cfg r setVideoURL st st'
  /\ (db st' = db st
      \/ statuses (trace st') = (statuses (trace st) ++ [StatusOK])%list
      \/ In (RespondError StatusInternalServerError
               "Failed to sign video URL") (trace st'))
  /\ putsAtMostOne cfg st st'
  /\ (freshTemp env st -> freshProcessed L env st ->
      remuxAllOrNothing env -> disk st' = disk st).
Proof.
  unfold respondsOnce, ownerOnly, putsAtMostOne, freshTemp, freshProcessed,
    remuxAllOrNothing.
  unfold VideoPresigned.handlerUploadVideo, videoPreamble,
    getVideoAspectRatio, processVideoForFastStart, dbVideoToSignedVideo.
  run_cases.
  all: split; [one_response|].
  all: split; [by_owner|].
  all: split;
    [first [left; reflexivity
           | right; left; tnorm; reflexivity
           | right; right; cbn; rewrite !in_app_iff; simpl; auto 10]|].
  all: split; [put_once|].
  all: try (intros _ _ Hall; exfalso; eapply Hall; eassumption).
  all: disk_restored.
Qed.

(** X1.  Whatever the request, the environment and the state are, every
    run of the three video handlers writes exactly one response, with
    status 200, 400, 401, 404 or 500: each of their error branches
    returns.  A run of the two thumbnail handlers does the same unless it
    writes the 400 response of the branch for a failed [r.FormFile], which
    has no [return]. *)
Theorem every_run_responds_once L cfg env r st :
  let unparsed :=
    RespondError StatusBadRequest "Couldn't parse thumbnail" in
  respondsOnce st
    (snd (serve (VideoDirect.handlerUploadVideo L cfg env r) st))
  /\ respondsOnce st
       (snd (serve (VideoOriented.handlerUploadVideo L cfg env r) st))
  /\ respondsOnce st
       (snd (serve (VideoPresigned.handlerUploadVideo L cfg env r) st))
  /\ (let st' :=
        snd (serve (ThumbnailDisk.handlerUploadThumbnail L cfg env r) st) in
      respondsOnce st st'
      \/ exists later, trace st' = (trace st ++ unparsed :: later)%list)
  /\ (let st' :=
        snd (serve (ThumbnailDataURL.handlerUploadThumbnail L cfg env r) st) in
      respondsOnce st st'
      \/ exists later, trace st' = (trace st ++ unparsed :: later)%list).
Proof.
  intros unparsed. cbv zeta.
  split; [|split; [|split; [|split]]].
  - destruct (serve (VideoDirect.handlerUploadVideo L cfg env r) st)
      as [o st'] eqn:E. apply (video_direct_run _ _ _ _ _ _ _ E).
  - destruct (serve (VideoOriented.handlerUploadVideo L cfg env r) st)
      as [o st'] eqn:E. apply (video_oriented_run _ _ _ _ _ _ _ E).
  - destruct (serve (VideoPresigned.handlerUploadVideo L cfg env r) st)
      as [o st'] eqn:E. apply (video_presigned_run _ _ _ _ _ _ _ E).
  - destruct (serve (ThumbnailDisk.handlerUploadThumbnail L cfg env r) st)
      as [o st'] eqn:E. left. apply (thumbnail_disk_run _ _ _ _ _ _ _ E).
  - destruct (serve (ThumbnailDataURL.handlerUploadThumbnail L cfg env r) st)
      as [o st'] eqn:E. left. apply (thumbnail_data_run _ _ _ _ _ _ _ E).
Qed.

(** X2.  Whatever the request, the environment and the state are, a
    handler changes the metadata store only for a request with a valid
    credential of the owner of the record that the request names, and then
    only by replacing that record by itself with a new thumbnail URL (the
    thumbnail handlers) or a new video URL (the video handlers). *)
Theorem only_the_owner_updates L cfg env r st :
  ownerOnly L cfg r setThumbnailURL st
    (snd (serve (ThumbnailDisk.handlerUploadThumbnail L cfg env r) st))
  /\ ownerOnly L cfg r setThumbnailURL st
       (snd (serve (ThumbnailDataURL.handlerUploadThumbnail L cfg env r) st))
  /\ ownerOnly L cfg r setVideoURL st
       (snd (serve (VideoDirect.handlerUploadVideo L cfg env r) st))
  /\ ownerOnly L cfg r setVideoURL st
       (snd (serve (VideoOriented.handlerUploadVideo L cfg env r) st))
  /\ ownerOnly L cfg r setVideoURL st
       (snd (serve (VideoPresigned.handlerUploadVideo L cfg env r) st)).
Proof.
  repeat split.
  - destruct (serve (ThumbnailDisk.handlerUploadThumbnail L cfg env r) st)
      as [o st'] eqn:E. apply (thumbnail_disk_run _ _ _ _ _ _ _ E).
  - destruct (serve (ThumbnailDataURL.handlerUploadThumbnail L cfg env r) st)
      as [o st'] eqn:E. apply (thumbnail_data_run _ _ _ _ _ _ _ E).
  - destruct (serve (VideoDirect.handlerUploadVideo L cfg env r) st)
      as [o st'] eqn:E. apply (video_direct_run _ _ _ _ _ _ _ E).
  - destruct (serve (VideoOriented.handlerUploadVideo L cfg env r) st)
      as [o st'] eqn:E. apply (video_oriented_run _ _ _ _ _ _ _ E).
  - destruct (serve (VideoPresigned.handlerUploadVideo L cfg env r) st)
      as [o st'] eqn:E. apply (video_presigned_run _ _ _ _ _ _ _ E).
Qed.

(** X3.  In the two thumbnail handlers and in the two video handlers that
    persist the public URL, the metadata store changes only in a run that
    answers 200: every error response leaves it as it was.  The handler
    that presigns is the exception: its store changes only in a run that
    answers 200 or that answers the failure to sign the URL. *)
Theorem errors_leave_the_store L cfg env r st :
  let changedOnlyWith200 (st' : State) :=
    db st' = db st
    \/ statuses (trace st') = (statuses (trace st) ++ [StatusOK])%list in
  changedOnlyWith200
    (snd (serve (ThumbnailDisk.handlerUploadThumbnail L cfg env r) st))
  /\ changedOnlyWith200
       (snd (serve (ThumbnailDataURL.handlerUploadThumbnail L cfg env r) st))
  /\ changedOnlyWith200
       (snd (serve (VideoDirect.handlerUploadVideo L cfg env r) st))
  /\ changedOnlyWith200
       (snd (serve (VideoOriented.handlerUploadVideo L cfg env r) st))
  /\ (let st' :=
        snd (serve (VideoPresigned.handlerUploadVideo L cfg env r) st) in
      db st' = db st
      \/ statuses (trace st') = (statuses (trace st) ++ [StatusOK])%list
      \/ In (RespondError StatusInternalServerError
               "Failed to sign video URL") (trace st')).
Proof.
  intros changedOnlyWith200. subst changedOnlyWith200. cbv beta zeta.
  repeat split.
  - destruct (serve (ThumbnailDisk.handlerUploadThumbnail L cfg env r) st)
      as [o st'] eqn:E. apply (thumbnail_disk_run _ _ _ _ _ _ _ E).
  - destruct (serve (ThumbnailDataURL.handlerUploadThumbnail L cfg env r) st)
      as [o st'] eqn:E. apply (thumbnail_data_run _ _ _ _ _ _ _ E).
  - destruct (serve (VideoDirect.handlerUploadVideo L cfg env r) st)
      as [o st'] eqn:E. apply (video_direct_run _ _ _ _ _ _ _ E).
  - destruct (serve (VideoOriented.handlerUploadVideo L cfg env r) st)
      as [o st'] eqn:E. apply (video_oriented_run _ _ _ _ _ _ _ E).
  - destruct (serve (VideoPresigned.handlerUploadVideo L cfg env r) st)
      as [o st'] eqn:E. apply (video_presigned_run _ _ _ _ _ _ _ E).
Qed.

(** X4.  The thumbnail handlers never put an object into the bucket.  The
    data-URL handler never touches the disk.  The disk-backed handler
    changes the disk at most at one path: the path derived from the
    identifier of the request and the content type of its thumbnail
    file. *)
Theorem thumbnail_handlers_frame L cfg env r st :
  let disk' :=
    snd (serve (ThumbnailDisk.handlerUploadThumbnail L cfg env r) st) in
  let data' :=
    snd (serve (ThumbnailDataURL.handlerUploadThumbnail L cfg env r) st) in
  objects disk' = objects st
  /\ objects data' = objects st
  /\ disk data' = disk st
  /\ (disk disk' = disk st
      \/ exists videoID form f bytes,
           uuid_Parse L (PathValue_videoID r) = Some videoID
           /\ MultipartForm r = Some form
           /\ form !! "thumbnail" = Some f
           /\ disk disk'
              = <[getAssetDiskPath L cfg
                    (getAssetPath L videoID (ContentType f)) := bytes]>
                  (disk st)).
Proof.
  intros disk' data'. subst disk' data'.
  destruct (serve (ThumbnailDisk.handlerUploadThumbnail L cfg env r) st)
    as [o1 st1] eqn:E1.
  destruct (serve (ThumbnailDataURL.handlerUploadThumbnail L cfg env r) st)
    as [o2 st2] eqn:E2.
  destruct (thumbnail_disk_run _ _ _ _ _ _ _ E1) as (_ & _ & _ & Ho1 & Hd1).
  destruct (thumbnail_data_run _ _ _ _ _ _ _ E2) as (_ & _ & _ & Ho2 & Hd2).
  auto.
Qed.

(** X5.  A video handler leaves no file behind: when the name that the
    system chooses for the temporary file is free, the disk after the run
    is the disk before it, on every path of the two handlers that upload
    the file as it is.  The same holds for the handler that remuxes when
    the name of the remuxed copy is free as well and [ffmpeg] does not
    give up with a part of its output written. *)
Theorem video_handlers_leave_no_file L cfg env r st :
  freshTemp env st ->
  disk (snd (serve (VideoDirect.handlerUploadVideo L cfg env r) st))
  = disk st
  /\ disk (snd (serve (VideoOriented.handlerUploadVideo L cfg env r) st))
     = disk st
  /\ (freshProcessed L env st ->
      remuxAllOrNothing env ->
      disk (snd (serve (VideoPresigned.handlerUploadVideo L cfg env r) st))
      = disk st).
Proof.
  intros Hfresh. repeat split.
  - destruct (serve (VideoDirect.handlerUploadVideo L cfg env r) st)
      as [o st'] eqn:E.
    apply (video_direct_run _ _ _ _ _ _ _ E). exact Hfresh.
  - destruct (serve (VideoOriented.handlerUploadVideo L cfg env r) st)
      as [o st'] eqn:E.
    apply (video_oriented_run _ _ _ _ _ _ _ E). exact Hfresh.
  - intros Hproc Hall.
    destruct (serve (VideoPresigned.handlerUploadVideo L cfg env r) st)
      as [o st'] eqn:E.
    apply (video_presigned_run _ _ _ _ _ _ _ E); assumption.
Qed.

(** X6.  A run of a video handler puts at most one object, and only into
    the configured bucket with the content type [video/mp4]; every other
    object of the bucket is as it was. *)
Theorem video_handlers_put_at_most_one L cfg env r st :
  putsAtMostOne cfg st
    (snd (serve (VideoDirect.handlerUploadVideo L cfg env r) st))
  /\ putsAtMostOne cfg st
       (snd (serve (VideoOriented.handlerUploadVideo L cfg env r) st))
  /\ putsAtMostOne cfg st
       (snd (serve (VideoPresigned.handlerUploadVideo L cfg env r) st)).
Proof.
  repeat split.
  - destruct (serve (VideoDirect.handlerUploadVideo L cfg env r) st)
      as [o st'] eqn:E. apply (video_direct_run _ _ _ _ _ _ _ E).
  - destruct (serve (VideoOriented.handlerUploadVideo L cfg env r) st)
      as [o st'] eqn:E. apply (video_oriented_run _ _ _ _ _ _ _ E).
  - destruct (serve (VideoPresigned.handlerUploadVideo L cfg env r) st)
      as [o st'] eqn:E. apply (video_presigned_run _ _ _ _ _ _ _ E).
Qed.

(** ** Rejections *)

(** X7.  A request whose identifier does not parse is answered 400 by
    every handler, before the credential is looked at: nothing else
    happens. *)
Theorem malformed_id_rejected L cfg env r st :
  uuid_Parse L (PathValue_videoID r) = None ->
  let invalid (msg : string) :=
    (Finished, emit (RespondError StatusBadRequest msg) st) in
  serve (ThumbnailDisk.handlerUploadThumbnail L cfg env r) st
  = invalid "Invalid ID"
  /\ serve (ThumbnailDataURL.handlerUploadThumbnail L cfg env r) st
     = invalid "Invalid ID"
  /\ serve (VideoDirect.handlerUploadVideo L cfg env r) st
     = invalid "Invalid video ID"
  /\ serve (VideoOriented.handlerUploadVideo L cfg env r) st
     = invalid "Invalid video ID"
  /\ serve (VideoPresigned.handlerUploadVideo L cfg env r) st
     = invalid "Invalid video ID".
Proof.
  intros Hid invalid.
  unfold ThumbnailDisk.handlerUploadThumbnail,
    ThumbnailDataURL.handlerUploadThumbnail,
    VideoDirect.handlerUploadVideo, VideoOriented.handlerUploadVideo,
    VideoPresigned.handlerUploadVideo, videoPreamble.
  hunfold. rewrite Hid. cbn. auto.
Qed.

(** X8.  A request with a well-formed identifier but without a bearer
    token, or with a token that does not validate against the secret, is
    answered 401 by every handler: the record is not even read, and
    nothing else happens. *)
Theorem bad_credential_rejected L cfg env r st videoID :
  uuid_Parse L (PathValue_videoID r) = Some videoID ->
  GetBearerToken L (Authorization r) = None
  \/ (exists token,
        GetBearerToken L (Authorization r) = Some token
        /\ ValidateJWT L token (jwtSecret cfg) = None) ->
  let denied (h : Handler unit) :=
    exists msg,
      serve h st = (Finished, emit (RespondError StatusUnauthorized msg) st) in
  denied (ThumbnailDisk.handlerUploadThumbnail L cfg env r)
  /\ denied (ThumbnailDataURL.handlerUploadThumbnail L cfg env r)
  /\ denied (VideoDirect.handlerUploadVideo L cfg env r)
  /\ denied (VideoOriented.handlerUploadVideo L cfg env r)
  /\ denied (VideoPresigned.handlerUploadVideo L cfg env r).
Proof.
  intros Hid Hcred denied. subst denied. cbv beta.
  unfold ThumbnailDisk.handlerUploadThumbnail,
    ThumbnailDataURL.handlerUploadThumbnail,
    VideoDirect.handlerUploadVideo, VideoOriented.handlerUploadVideo,
    VideoPresigned.handlerUploadVideo, videoPreamble.
  hunfold. rewrite Hid.
  destruct Hcred as [Htok | (token & Htok & Hjwt)].
  - rewrite Htok. cbn. eauto 10.
  - rewrite Htok. cbn. rewrite Hjwt. cbn. eauto 10.
Qed.

(** X9.  The owner sends a [video] file whose declared content type is
    empty, does not parse, or parses to anything but [video/mp4]: the three
    video handlers answer 400, having read the record and nothing more; no
    temporary file is created and no object is put. *)
Theorem video_type_rejected L cfg env r st videoID video form f :
  authenticated L cfg r videoID (UserID video) ->
  db st !! videoID = Some video ->
  MultipartForm r = Some form ->
  form !! "video" = Some f ->
  ContentType f = ""
  \/ ParseMediaType L (ContentType f) = None
  \/ (exists mt, ParseMediaType L (ContentType f) = Some mt
                 /\ mt <> "video/mp4") ->
  let rejected (h : Handler unit) :=
    exists msg,
      serve h st
      = (Finished,
         emit (RespondError StatusBadRequest msg)
           (emit (DBGetVideo videoID) st)) in
  rejected (VideoDirect.handlerUploadVideo L cfg env r)
  /\ rejected (VideoOriented.handlerUploadVideo L cfg env r)
  /\ rejected (VideoPresigned.handlerUploadVideo L cfg env r).
Proof.
  intros (Hid & token & Htok & Hjwt) Hget Hform Hfile Hbad rejected.
  assert (Hpre : exists msg,
             videoPreamble L cfg r st
             = (Return,
                emit (RespondError StatusBadRequest msg)
                  (emit (DBGetVideo videoID) st))).
  { unfold videoPreamble. hunfold. hrun. rewrite String.eqb_refl. hrun.
    destruct (String.eqb (ContentType f) "") eqn:Hct.
    { hrun. eauto. }
    destruct Hbad as [Hempty | [Hnone | (mt & Hmt & Hne)]].
    - rewrite Hempty in Hct. discriminate Hct.
    - rewrite Hnone. hrun. eauto.
    - rewrite Hmt. apply eqb_false in Hne. hrun. eauto. }
  destruct Hpre as (msg & Hpre).
  subst rejected. cbv beta.
  unfold VideoDirect.handlerUploadVideo, VideoOriented.handlerUploadVideo,
    VideoPresigned.handlerUploadVideo, serve.
  rewrite !(bind_Return _ _ _ _ Hpre). eauto 10.
Qed.

(** ** Failures after the object is put *)

Section Published.

(** A video upload has passed the common steps of the handler and has
    been staged under an absolute name; the probe sees a first stream with
    a width and a height that are not zero; the object store takes the
    object. *)
Context (L : Lib) (cfg : apiConfig) (env : Env) (r : Request) (st : State)
  (videoID : UUID) (video : Video) (f : FormFile) (mt : string)
  (tmp : string) (w h : Z) (more : list (Z * Z)).
Hypothesis Hpre :
  videoPreamble L cfg r st
  = (Next (video, f, mt), emit (DBGetVideo videoID) st).
Hypothesis Htmp : os_CreateTemp_name env = Some tmp.
Hypothesis Hcopy : io_Copy_stops env = None.
Hypothesis Hseek : Seek_fails env = false.
Hypothesis Habs : filepath_Abs L tmp = Some tmp.
Hypothesis Hprobe :
  ffprobe env (Some (content f)) = ProbeStreams ((w, h) :: more).
Hypothesis Hw : w <> 0.
Hypothesis Hh : h <> 0.
Hypothesis Hput : PutObject_fails env = false.

Lemma probe_published st0 :
  disk st0 !! tmp = Some (content f) ->
  getVideoAspectRatio L env tmp st0
  = (Next (Some (itoa w +:+ ":" +:+ itoa h)), emit (RunProbe tmp) st0).
Proof.
  intros Hfile.
  rewrite (getVideoAspectRatio_streams _ _ _ _ _ _ _ _ Habs Hfile Hprobe).
  rewrite (nonzero_dimension _ _ Hw Hh). reflexivity.
Qed.

(** X10.  When the update of the record fails after the object has been
    put, the handler answers 500 and the metadata store is as it was, but
    the object stays in the bucket: with the bytes of the upload in the
    handlers that upload the file as it is, with the output of [ffmpeg] in
    the handler that remuxes. *)
Theorem failed_update_leaves_object :
  UpdateVideo_fails env = true ->
  let orphaned (st' : State) (body : string) :=
    statuses (trace st')
    = (statuses (trace st) ++ [StatusInternalServerError])%list
    /\ db st' = db st
    /\ exists key,
         objects st' = <[(s3Bucket cfg, key) := (body, mt)]> (objects st) in
  orphaned (snd (serve (VideoDirect.handlerUploadVideo L cfg env r) st))
    (content f)
  /\ orphaned (snd (serve (VideoOriented.handlerUploadVideo L cfg env r) st))
       (content f)
  /\ forall out,
       ffmpeg env (Some (content f)) = RemuxDone out ->
       os_Open_fails env = false ->
       orphaned
         (snd (serve (VideoPresigned.handlerUploadVideo L cfg env r) st)) out.
Proof.
  intros Hupd orphaned. subst orphaned. cbv beta.
  split; [|split].
  - destruct (serve (VideoDirect.handlerUploadVideo L cfg env r) st)
      as [o st'] eqn:E.
    revert E. vstart Hpre. rewrite lookup_insert_eq. hrun.
    intros E. injection E as <- <-. tnorm. eauto.
  - destruct (serve (VideoOriented.handlerUploadVideo L cfg env r) st)
      as [o st'] eqn:E.
    revert E. vstart Hpre.
    rewrite probe_published by apply lookup_insert_eq.
    hrun. rewrite lookup_insert_eq. hrun.
    intros E. injection E as <- <-. tnorm. eauto.
  - intros out Hremux Hopen.
    destruct (serve (VideoPresigned.handlerUploadVideo L cfg env r) st)
      as [o st'] eqn:E.
    revert E. vstart Hpre.
    rewrite probe_published by apply lookup_insert_eq.
    hrun. unfold processVideoForFastStart. rewrite Habs. hrun.
    rewrite lookup_insert_eq, Hremux. hrun.
    rewrite lookup_insert_eq. hrun.
    intros E. injection E as <- <-. tnorm. eauto.
Qed.

(** X11.  In the handler that presigns, the record is updated before the
    URL is signed: when the presigner gives an error after the update has
    succeeded, the handler answers 500 although the object is in the
    bucket and the record already holds the composite of the bucket and
    the key. *)
Theorem failed_signing_keeps_update out :
  ffmpeg env (Some (content f)) = RemuxDone out ->
  os_Open_fails env = false ->
  UpdateVideo_fails env = false ->
  (forall key, PresignGetObject env (s3Bucket cfg) key Hour = None) ->
  let st' :=
    snd (serve (VideoPresigned.handlerUploadVideo L cfg env r) st) in
  exists key,
    statuses (trace st')
    = (statuses (trace st) ++ [StatusInternalServerError])%list
    /\ In (RespondError StatusInternalServerError "Failed to sign video URL")
         (trace st')
    /\ db st'
       = <[ID video := setVideoURL video (s3Bucket cfg +:+ "," +:+ key)]>
           (db st)
    /\ objects st' = <[(s3Bucket cfg, key) := (out, mt)]> (objects st).
Proof.
  intros Hremux Hopen Hupd Hsign st'. subst st'.
  destruct (serve (VideoPresigned.handlerUploadVideo L cfg env r) st)
    as [o st'] eqn:E.
  revert E. vstart Hpre.
  rewrite probe_published by apply lookup_insert_eq.
  hrun. unfold processVideoForFastStart. rewrite Habs. hrun.
  rewrite lookup_insert_eq, Hremux. hrun.
  rewrite lookup_insert_eq. hrun.
  unfold dbVideoToSignedVideo. hunfold. cbn.
  rewrite composite_nonempty.
  repeat (hcase; hrun).
  all: try match goal with
           | H : Split _ "," = [_; _] |- _ =>
               apply composite_inv in H as [-> ->]
           end.
  all: try match goal with
           | H : PresignGetObject _ _ _ _ = Some _ |- _ =>
               rewrite Hsign in H; discriminate H
           end.
  all: intros E; injection E as <- <-.
  all: eexists; tnorm; rewrite ?in_app_iff; simpl;
    repeat split; auto;
    repeat (try (left; reflexivity); right).
Qed.

End Published.

(** ** Successful uploads *)

(** The common steps of a video handler did not pass, so the response is
    not 200. *)
Ltac preamble_stopped Hpre Hserve Hstatus :=
  exfalso;
  let Hfl := fresh in
  let code := fresh "code" in
  let Hcode := fresh in
  let Hrange := fresh in
  destruct (videoPreamble_stops _ _ _ _ _ _ Hpre ltac:(discriminate))
    as (Hfl & _ & _ & _ & _ & _ & code & Hcode & Hrange);
  try discriminate Hfl;
  rewrite (bind_Return _ _ _ _ Hpre) in Hserve;
  injection Hserve as <- <-;
  rewrite Hcode in Hstatus; apply app_inv_head in Hstatus;
  injection Hstatus as ->; unfold StatusOK in Hrange; lia.

(** The cases of a run that got the response 200. *)
Ltac answered_200 :=
  repeat (hcase; hrun);
  (let Hserve := fresh in intros Hserve; injection Hserve as <- <-);
  tnorm;
  (let Hstatus := fresh in
   intros Hstatus; apply app_inv_head in Hstatus;
   try discriminate Hstatus).

(** X12.  A video upload to the handler that persists the public URL got
    the response 200.  Then the request came from the owner of the record
    with an mp4 file; the bytes of that file were put into the bucket
    under the key, which is the random name and the extension of the file
    name, with the type [video/mp4]; the record was updated once, with the
    public URL of that key, and the response carries the record as it was
    persisted; the temporary file is gone. *)
Theorem direct_upload_succeeds L cfg env r st o st' :
  serve (VideoDirect.handlerUploadVideo L cfg env r) st = (o, st') ->
  statuses (trace st') = (statuses (trace st) ++ [StatusOK])%list ->
  exists videoID video form f,
    let key := hex (uuid_New env) +:+ Ext (Filename f) in
    let video' := setVideoURL video (publicURL cfg key) in
    authenticated L cfg r videoID (UserID video)
    /\ db st !! videoID = Some video
    /\ MultipartForm r = Some form
    /\ form !! "video" = Some f
    /\ db st' = <[ID video := video']> (db st)
    /\ objects st'
       = <[(s3Bucket cfg, key) := (content f, "video/mp4")]> (objects st)
    /\ updates (trace st') = (updates (trace st) ++ [video'])%list
    /\ In (RespondJSON StatusOK video') (trace st')
    /\ (forall tmp, os_CreateTemp_name env = Some tmp ->
                    disk st' !! tmp = None).
Proof.
  intros Hserve Hstatus.
  unfold VideoDirect.handlerUploadVideo, serve in Hserve.
  destruct (videoPreamble L cfg r st) as [fl st1] eqn:Hpre.
  destruct fl as [[[video f] mt]| |];
    [|preamble_stopped Hpre Hserve Hstatus..].
  destruct (videoPreamble_inv _ _ _ _ _ _ _ _ Hpre)
    as (videoID & form & Hauth & Hget & Hform & Hfile & Hmt & -> & ->).
  rewrite (bind_Next _ _ _ _ _ Hpre) in Hserve.
  revert Hserve Hstatus. hunfold. answered_200.
  exists videoID, video, form, f.
  cbv zeta. split; [exact Hauth|].
  do 3 (split; [first [assumption | reflexivity]|]).
  cbn. rewrite lookup_insert_eq. cbn.
  do 3 (split; [reflexivity|]).
  split; [rewrite !in_app_iff; simpl; auto 10|].
  intros tmp0 Htmp0. injection Htmp0 as <-. apply lookup_delete_eq.
Qed.

(** X13.  The same for the handler that probes the video: a response 200
    means that the owner's mp4 file is in the bucket under one of the
    three directory prefixes followed by the random name and the
    extension, that the record was updated once with the public URL of
    that key, and that the response carries the persisted record. *)
Theorem oriented_upload_succeeds L cfg env r st o st' :
  serve (VideoOriented.handlerUploadVideo L cfg env r) st = (o, st') ->
  statuses (trace st') = (statuses (trace st) ++ [StatusOK])%list ->
  exists videoID video form f prefix,
    let key := prefix +:+ hex (uuid_New env) +:+ Ext (Filename f) in
    let video' := setVideoURL video (publicURL cfg key) in
    authenticated L cfg r videoID (UserID video)
    /\ db st !! videoID = Some video
    /\ MultipartForm r = Some form
    /\ form !! "video" = Some f
    /\ In prefix ["landscape/"; "portrait/"; "other/"]
    /\ db st' = <[ID video := video']> (db st)
    /\ objects st'
       = <[(s3Bucket cfg, key) := (content f, "video/mp4")]> (objects st)
    /\ updates (trace st') = (updates (trace st) ++ [video'])%list
    /\ In (RespondJSON StatusOK video') (trace st')
    /\ (forall tmp, os_CreateTemp_name env = Some tmp ->
                    disk st' !! tmp = None).
Proof.
  intros Hserve Hstatus.
  unfold VideoOriented.handlerUploadVideo, serve in Hserve.
  destruct (videoPreamble L cfg r st) as [fl st1] eqn:Hpre.
  destruct fl as [[[video f] mt]| |];
    [|preamble_stopped Hpre Hserve Hstatus..].
  destruct (videoPreamble_inv _ _ _ _ _ _ _ _ Hpre)
    as (videoID & form & Hauth & Hget & Hform & Hfile & Hmt & -> & ->).
  rewrite (bind_Next _ _ _ _ _ Hpre) in Hserve.
  revert Hserve Hstatus. unfold getVideoAspectRatio. hunfold. answered_200.
  match goal with
  | |- context [orientation ?a ?b ?c ?ratio] =>
      exists videoID, video, form, f, (orientation a b c ratio);
      pose proof (orientation_cases a b c ratio) as Hcases
  end.
  cbv zeta. split; [exact Hauth|].
  do 3 (split; [first [assumption | reflexivity]|]).
  cbn. rewrite lookup_insert_eq. cbn.
  split; [destruct Hcases as [-> | [-> | ->]]; simpl; auto|].
  do 3 (split; [reflexivity|]).
  split; [rewrite !in_app_iff; simpl; auto 10|].
  intros tmp0 Htmp0. injection Htmp0 as <-. apply lookup_delete_eq.
Qed.

(** X14.  A thumbnail upload to the disk-backed handler got the response
    200.  Then the request came from the owner of the record with a
    thumbnail file whose content type parses to [image/jpeg] or
    [image/png]; the file at the derived path holds the uploaded bytes;
    the record was updated once, with the URL of that asset, and the
    response carries the persisted record. *)
Theorem disk_thumbnail_succeeds L cfg env r st o st' :
  serve (ThumbnailDisk.handlerUploadThumbnail L cfg env r) st = (o, st') ->
  statuses (trace st') = (statuses (trace st) ++ [StatusOK])%list ->
  exists videoID video form f mt,
    let assetPath := getAssetPath L videoID (ContentType f) in
    let video' := setThumbnailURL video (getAssetURL L cfg assetPath) in
    authenticated L cfg r videoID (UserID video)
    /\ db st !! videoID = Some video
    /\ MultipartForm r = Some form
    /\ form !! "thumbnail" = Some f
    /\ ParseMediaType L (ContentType f) = Some mt
    /\ (mt = "image/jpeg" \/ mt = "image/png")
    /\ db st' = <[ID video := video']> (db st)
    /\ disk st' = <[getAssetDiskPath L cfg assetPath := content f]> (disk st)
    /\ trace st'
       = (trace st
          ++ [FileCreate (getAssetDiskPath L cfg assetPath);
              FileWrite (getAssetDiskPath L cfg assetPath);
              DBGetVideo videoID; DBUpdateVideo video';
              RespondJSON StatusOK video'])%list
    /\ o = Finished.
Proof.
  unfold ThumbnailDisk.handlerUploadThumbnail. hunfold. answered_200.
  owner_facts.
  match goal with
  | Hid : uuid_Parse L _ = Some ?videoID,
    Hget : db st !! ?videoID = Some ?video,
    Hform : MultipartForm r = Some ?form,
    Hfile : ?form !! "thumbnail" = Some ?f,
    Hmt : ParseMediaType L _ = Some ?mt |- _ =>
      exists videoID, video, form, f, mt
  end.
  cbv zeta.
  split; [subst; unfold authenticated; eauto 6|].
  do 4 (split; [first [assumption | reflexivity]|]).
  split.
  { match goal with
    | H : negb _ && negb _ = false |- _ =>
        apply andb_false_iff in H as [H | H];
        apply negb_false_iff, String.eqb_eq in H; auto
    end. }
  cbn. rewrite insert_insert_eq. auto.
Qed.

(** X15.  A thumbnail upload to the data-URL handler got the response
    200.  Then the request came from the owner of the record with a
    thumbnail file whose declared content type is not empty; the record
    was updated once, with the data URL made of that declared type and of
    the bytes in base64, and the response carries the persisted record;
    the disk is as it was. *)
Theorem data_url_thumbnail_succeeds L cfg env r st o st' :
  serve (ThumbnailDataURL.handlerUploadThumbnail L cfg env r) st = (o, st') ->
  statuses (trace st') = (statuses (trace st) ++ [StatusOK])%list ->
  exists videoID video form f,
    let video' :=
      setThumbnailURL video
        ("data:" +:+ ContentType f +:+ ";base64,"
         +:+ EncodeToString (content f)) in
    authenticated L cfg r videoID (UserID video)
    /\ db st !! videoID = Some video
    /\ MultipartForm r = Some form
    /\ form !! "thumbnail" = Some f
    /\ ContentType f <> ""
    /\ db st' = <[ID video := video']> (db st)
    /\ disk st' = disk st
    /\ trace st'
       = (trace st
          ++ [DBGetVideo videoID; DBUpdateVideo video';
              RespondJSON StatusOK video'])%list
    /\ o = Finished.
Proof.
  unfold ThumbnailDataURL.handlerUploadThumbnail. hunfold. answered_200.
  owner_facts.
  match goal with
  | Hid : uuid_Parse L _ = Some ?videoID,
    Hget : db st !! ?videoID = Some ?video,
    Hform : MultipartForm r = Some ?form,
    Hfile : ?form !! "thumbnail" = Some ?f |- _ =>
      exists videoID, video, form, f
  end.
  cbv zeta.
  split; [subst; unfold authenticated; eauto 6|].
  do 3 (split; [first [assumption | reflexivity]|]).
  split; [apply String.eqb_neq; assumption|].
  cbn. auto.
Qed.

(** ** The thumbnail file on the disk *)

Section ThumbnailFile.

(** Two requests name the same record and carry a thumbnail file of the
    same declared content type, which parses to an allowed type; the
    disk takes the file of the second. *)
Context (L : Lib) (cfg : apiConfig) (videoID : UUID) (video : Video)
  (ct mt : string).
Hypothesis Hct : ct <> "".
Hypothesis Hmt : ParseMediaType L ct = Some mt.
Hypothesis Hok : mt = "image/jpeg" \/ mt = "image/png".

Lemma allowed_type :
  negb (String.eqb mt "image/jpeg") && negb (String.eqb mt "image/png")
  = false.
Proof. destruct Hok as [-> | ->]; reflexivity. Qed.

(** X16.  The path of the thumbnail file depends on the identifier and on
    the declared content type only, and the file is written before the
    owner is checked.  So after the owner of a record has stored a
    thumbnail, an upload for the same record with the same declared
    content type by another principal is answered 401 and leaves the
    record as it is, with the URL of the owner's asset, but the file behind
    that URL now holds the bytes of the other principal. *)
Theorem stranger_replaces_thumbnail_file
  env1 env2 r1 r2 st form1 form2 f1 f2 other :
  authenticated L cfg r1 videoID (UserID video) ->
  authenticated L cfg r2 videoID other ->
  other <> UserID video ->
  db st !! videoID = Some video ->
  ID video = videoID ->
  MultipartForm r1 = Some form1 -> form1 !! "thumbnail" = Some f1 ->
  MultipartForm r2 = Some form2 -> form2 !! "thumbnail" = Some f2 ->
  ContentType f1 = ct -> ContentType f2 = ct ->
  os_Create_fails env1 = false -> io_Copy_stops env1 = None ->
  UpdateVideo_fails env1 = false ->
  os_Create_fails env2 = false -> io_Copy_stops env2 = None ->
  let assetPath := getAssetPath L videoID ct in
  let path := getAssetDiskPath L cfg assetPath in
  let st1 :=
    snd (serve (ThumbnailDisk.handlerUploadThumbnail L cfg env1 r1) st) in
  let st2 :=
    snd (serve (ThumbnailDisk.handlerUploadThumbnail L cfg env2 r2) st1) in
  statuses (trace st2)
  = (statuses (trace st) ++ [StatusOK; StatusUnauthorized])%list
  /\ db st1 !! videoID
     = Some (setThumbnailURL video (getAssetURL L cfg assetPath))
  /\ disk st1 !! path = Some (content f1)
  /\ db st2 = db st1
  /\ disk st2 !! path = Some (content f2).
Proof.
  intros (Hid1 & token1 & Htok1 & Hjwt1) (Hid2 & token2 & Htok2 & Hjwt2)
    Hother Hget Hkey Hform1 Hfile1 Hform2 Hfile2 Hct1 Hct2
    Hcreate1 Hcopy1 Hupd1 Hcreate2 Hcopy2 assetPath path st1 st2.
  pose proof allowed_type as Hallow.
  apply eqb_false in Hother.
  assert (Hne : String.eqb ct "" = false) by (apply eqb_false; exact Hct).
  assert (E1 : serve (ThumbnailDisk.handlerUploadThumbnail L cfg env1 r1) st
               = (Finished,
                  emit (RespondJSON StatusOK
                          (setThumbnailURL video (getAssetURL L cfg assetPath)))
                    (emit (DBUpdateVideo
                             (setThumbnailURL video
                                (getAssetURL L cfg assetPath)))
                       (setDB (<[videoID :=
                                   setThumbnailURL video
                                     (getAssetURL L cfg assetPath)]> (db st))
                          (emit (DBGetVideo videoID)
                             (emit (FileWrite path)
                                (setDisk (<[path := content f1]>
                                            (<[path := ""]> (disk st)))
                                   (emit (FileCreate path)
                                      (setDisk (<[path := ""]> (disk st))
                                         st))))))))).
  { unfold ThumbnailDisk.handlerUploadThumbnail. hunfold.
    rewrite Hid1, Htok1. cbn. rewrite Hjwt1, Hform1. cbn.
    rewrite Hfile1. cbn. rewrite Hct1, Hne, Hmt. cbn.
    rewrite Hallow, Hcreate1. cbn. rewrite Hcopy1. cbn.
    rewrite Hget. cbn. rewrite String.eqb_refl, Hupd1. cbn.
    rewrite Hkey. reflexivity. }
  subst st1 st2. rewrite E1. cbn [snd].
  unfold ThumbnailDisk.handlerUploadThumbnail. hunfold.
  rewrite Hid2, Htok2. cbn. rewrite Hjwt2, Hform2. cbn.
  rewrite Hfile2. cbn. rewrite Hct2, Hne, Hmt. cbn.
  rewrite Hallow, Hcreate2. cbn. rewrite Hcopy2. cbn.
  rewrite lookup_insert_eq. cbn.
  rewrite String.eqb_sym, Hother. cbn.
  rewrite <- !app_assoc. cbn.
  unfold statuses. rewrite omap_app. cbn.
  split; [reflexivity|].
  split; [reflexivity|].
  split; [rewrite lookup_insert_eq; reflexivity|].
  split; [reflexivity|].
  apply lookup_insert_eq.
Qed.


End ThumbnailFile.

(** ** The helpers *)

(** Exactly two pieces: the string is the first, the separator and the
    second, and the separator occurs nowhere else. *)
Lemma Split_two s sep a b :
  Split s sep = [a; b] ->
  s = a +:+ String sep b /\ has sep a = false /\ has sep b = false.
Proof.
  revert a. induction s as [|x r IH]; simpl; intros a; [discriminate|].
  destruct (Ascii.eqb x sep) eqn:Ex.
  - intros H. injection H as <- H.
    apply Ascii.eqb_eq in Ex. subst x.
    assert (Hb : has sep r = false).
    { destruct (has sep r) eqn:E; [|reflexivity].
      apply has_count in E.
      pose proof (Split_length r sep) as Hlen. rewrite H in Hlen.
      simpl in Hlen. lia. }
    rewrite (Split_no_sep _ _ Hb) in H. injection H as ->. auto.
  - destruct (Split r sep) as [|q qs] eqn:E; [discriminate|].
    intros H. injection H as <- ->.
    destruct (IH q eq_refl) as (-> & Ha & Hb).
    simpl. rewrite Ex. auto.
Qed.

(** X18.  [getVideoAspectRatio] changes no store.  It gives a ratio only
    when the path has an absolute form and the probe of the file gives a
    first stream with a width and a height that are not zero: the later
    streams do not count.  The ratio then splits at the colon into exactly
    two pieces, which [strconv.Atoi] reads back without an error as that
    width and that height, for every width and height of the range of
    [int]. *)
Theorem aspect_ratio_reads_back L env path st res st' :
  getVideoAspectRatio L env path st = (res, st') ->
  db st' = db st /\ disk st' = disk st /\ objects st' = objects st
  /\ (exists r, res = Next r)
  /\ forall ratio,
       res = Next (Some ratio) ->
       exists abs w h more,
         filepath_Abs L path = Some abs
         /\ ffprobe env (disk st !! abs) = ProbeStreams ((w, h) :: more)
         /\ w <> 0 /\ h <> 0
         /\ (minInt <= w <= maxInt ->
             minInt <= h <= maxInt ->
             exists p0 p1,
               Split ratio ":" = [p0; p1]
               /\ Atoi p0 = (w, false)
               /\ Atoi p1 = (h, false)).
Proof.
  unfold getVideoAspectRatio. hunfold.
  repeat (hcase; hrun).
  all: intros E; injection E as <- <-.
  all: do 3 (split; [reflexivity|]).
  all: split; [eauto|].
  all: intros ratio Hres; try discriminate Hres.
  injection Hres as <-.
  match goal with
  | Habs : filepath_Abs L path = Some ?abs,
    Hdim : (?w =? 0) || (?h =? 0) = false |- _ =>
      exists abs, w, h;
      apply orb_false_iff in Hdim as [Hw Hh];
      apply Z.eqb_neq in Hw, Hh;
      eexists; split; [reflexivity|];
      split; [eassumption|];
      do 2 (split; [assumption|]);
      intros Hwr Hhr; exists (itoa w), (itoa h)
  end.
  change (":" +:+ itoa ?x) with (String ":" (itoa x)).
  rewrite Split_join by apply itoa_no_colon.
  rewrite !Atoi_itoa by assumption. auto.
Qed.

(** X19.  [processVideoForFastStart] changes neither the metadata store
    nor the bucket, and on the disk at most the file beside its input
    whose name ends in [.processing]: the input file is as it was.  When
    it gives a path, that is the path of this file, and the file holds
    the output of [ffmpeg]. *)
Theorem fast_start_writes_beside_input L env path st res st' :
  processVideoForFastStart L env path st = (res, st') ->
  db st' = db st /\ objects st' = objects st
  /\ (exists r, res = Next r)
  /\ (filepath_Abs L path = None -> res = Next None /\ disk st' = disk st)
  /\ forall abs,
       filepath_Abs L path = Some abs ->
       disk st' !! abs = disk st !! abs
       /\ (forall p, p <> abs +:+ ".processing" ->
                     disk st' !! p = disk st !! p)
       /\ forall out,
            res = Next (Some out) ->
            out = abs +:+ ".processing"
            /\ exists bytes,
                 ffmpeg env (disk st !! abs) = RemuxDone bytes
                 /\ disk st' !! out = Some bytes.
Proof.
  unfold processVideoForFastStart. hunfold.
  repeat (hcase; hrun).
  all: intros E; injection E as <- <-.
  all: do 2 (split; [reflexivity|]).
  all: split; [eauto|].
  all: split; [intros Hnone; try discriminate Hnone; auto|].
  all: intros abs Habs; try discriminate Habs; injection Habs as <-.
  all: cbn.
  all: split;
    [rewrite ?lookup_insert_ne by (apply not_eq_sym, append_neq);
     reflexivity|].
  all: split;
    [intros p Hp; rewrite ?lookup_insert_ne by (apply not_eq_sym; exact Hp);
     reflexivity|].
  all: intros out Hout; try discriminate Hout; injection Hout as <-.
  split; [reflexivity|].
  eexists. split; [eassumption|]. apply lookup_insert_eq.
Qed.

(** X20.  [dbVideoToSignedVideo] changes no store and no field of the
    record but the video URL.  With an error it gives the record back as
    it is.  It gives a record with another video URL only when the stored
    URL is a bucket, one comma and a key, and then the new URL is the one
    that the presigner gives for that bucket and key and one hour. *)
Theorem signing_changes_the_url_only env video st :
  exists video' err st',
    dbVideoToSignedVideo env video st = (Next (video', err), st')
    /\ db st' = db st /\ disk st' = disk st /\ objects st' = objects st
    /\ ID video' = ID video /\ UserID video' = UserID video
    /\ ThumbnailURL video' = ThumbnailURL video
    /\ Title video' = Title video /\ Description video' = Description video
    /\ (err = true -> video' = video)
    /\ (VideoURL video' <> VideoURL video ->
        exists bucket key url,
          VideoURL video = Some (bucket +:+ "," +:+ key)
          /\ has "," bucket = false /\ has "," key = false
          /\ PresignGetObject env bucket key Hour = Some url
          /\ VideoURL video' = Some url
          /\ err = false).
Proof.
  unfold dbVideoToSignedVideo. hunfold.
  repeat (hcase; hrun).
  all: do 3 eexists; split; [reflexivity|].
  all: cbn.
  all: do 8 (split; [reflexivity|]).
  all: split; [intros Herr; try discriminate Herr; reflexivity|].
  all: intros Hne; try congruence.
  match goal with
  | H : Split _ "," = [_; _] |- _ =>
      apply Split_two in H as (-> & Hb & Hk)
  end.
  eauto 10.
Qed.

(** ** The further properties at work *)

(** X5: the theorem at an upload by the owner of [V1] on an empty disk. *)
Lemma video_handlers_leave_no_file_witness :
  let r := Sample.upload "video" Sample.clip in
  let env := Sample.env 1920 1080 in
  disk (snd (serve (VideoDirect.handlerUploadVideo Sample.lib Sample.cfg
                      env r) Sample.start))
  = disk Sample.start
  /\ disk (snd (serve (VideoPresigned.handlerUploadVideo Sample.lib
                         Sample.cfg env r) Sample.start))
     = disk Sample.start.
Proof.
  intros r env.
  destruct (video_handlers_leave_no_file Sample.lib Sample.cfg env r
              Sample.start) as (Hdirect & _ & Hpresigned).
  - intros tmp _. reflexivity.
  - split; [exact Hdirect|]. apply Hpresigned.
    + intros tmp abs _ _. reflexivity.
    + intros [file|] part; discriminate.
Defined.

(** X7: the theorem at a request with an empty identifier. *)
Lemma malformed_id_rejected_witness :
  let r := mkRequest "" "Bearer alice.s3cr3t"
             (Some {[ "video" := Sample.clip ]}) in
  serve (VideoPresigned.handlerUploadVideo Sample.lib Sample.cfg
           (Sample.env 1920 1080) r) Sample.start
  = (Finished,
     emit (RespondError StatusBadRequest "Invalid video ID") Sample.start).
Proof.
  intros r.
  exact (proj2 (proj2 (proj2 (proj2
           (malformed_id_rejected Sample.lib Sample.cfg
              (Sample.env 1920 1080) r Sample.start eq_refl))))).
Defined.

(** X8: the theorem at a request for [V1] without a bearer token. *)
Lemma bad_credential_rejected_witness :
  let r := mkRequest "V1" "" (Some {[ "thumbnail" := Sample.png ]}) in
  exists msg,
    serve (ThumbnailDisk.handlerUploadThumbnail Sample.lib Sample.cfg
             (Sample.env 1920 1080) r) Sample.start
    = (Finished, emit (RespondError StatusUnauthorized msg) Sample.start).
Proof.
  intros r.
  exact (proj1 (bad_credential_rejected Sample.lib Sample.cfg
                  (Sample.env 1920 1080) r Sample.start "V1" eq_refl
                  (or_introl eq_refl))).
Defined.

(** X9: the theorem at a text file sent as the video by the owner of
    [V1]. *)
Lemma video_type_rejected_witness :
  let r := Sample.upload "video" Sample.notes in
  exists msg,
    serve (VideoPresigned.handlerUploadVideo Sample.lib Sample.cfg
             (Sample.env 1920 1080) r) Sample.start
    = (Finished,
       emit (RespondError StatusBadRequest msg)
         (emit (DBGetVideo "V1") Sample.start)).
Proof.
  intros r.
  refine (proj2 (proj2
            (video_type_rejected Sample.lib Sample.cfg (Sample.env 1920 1080)
               r Sample.start "V1" Sample.V1 {[ "video" := Sample.notes ]}
               Sample.notes _ _ eq_refl _ _))).
  - split; [reflexivity|]. exists "alice.s3cr3t". split; reflexivity.
  - vm_compute. reflexivity.
  - vm_compute. reflexivity.
  - right. right. exists "text/plain". split; [reflexivity|discriminate].
Defined.

(** X10: the theorem at an upload by the owner of [V1] when the update of
    the record fails. *)
Lemma failed_update_leaves_object_witness :
  let r := Sample.upload "video" Sample.clip in
  let st' := snd (serve (VideoPresigned.handlerUploadVideo Sample.lib
                           Sample.cfg Sample.envUpdateFails r)
                    Sample.start) in
  statuses (trace st') = [StatusInternalServerError]
  /\ db st' = db Sample.start
  /\ exists key,
       objects st'
       = <[("tubely-private", key) := ("BYTES", "video/mp4")]>
           (objects Sample.start).
Proof.
  intros r st'.
  destruct (failed_update_leaves_object Sample.lib Sample.cfg
              Sample.envUpdateFails r Sample.start "V1" Sample.V1
              Sample.clip "video/mp4" "/tmp/tubely-upload-1.mp4"
              1920 1080 []) as (_ & _ & Hpresigned).
  - vm_compute. reflexivity.
  - reflexivity.
  - reflexivity.
  - reflexivity.
  - reflexivity.
  - reflexivity.
  - discriminate.
  - discriminate.
  - reflexivity.
  - reflexivity.
  - exact (Hpresigned "BYTES" eq_refl eq_refl).
Defined.

(** X11: the theorem at an upload by the owner of [V1] when the presigner
    gives an error. *)
Lemma failed_signing_keeps_update_witness :
  let r := Sample.upload "video" Sample.clip in
  let st' := snd (serve (VideoPresigned.handlerUploadVideo Sample.lib
                           Sample.cfg Sample.envSignerDown r)
                    Sample.start) in
  exists key,
    statuses (trace st') = [StatusInternalServerError]
    /\ In (RespondError StatusInternalServerError "Failed to sign video URL")
         (trace st')
    /\ db st'
       = <["V1" := setVideoURL Sample.V1 ("tubely-private," +:+ key)]>
           (db Sample.start)
    /\ objects st'
       = <[("tubely-private", key) := ("BYTES", "video/mp4")]>
           (objects Sample.start).
Proof.
  intros r st'.
  apply (failed_signing_keeps_update Sample.lib Sample.cfg
           Sample.envSignerDown r Sample.start "V1" Sample.V1
           Sample.clip "video/mp4" "/tmp/tubely-upload-1.mp4"
           1920 1080 []).
  - vm_compute. reflexivity.
  - reflexivity.
  - reflexivity.
  - reflexivity.
  - reflexivity.
  - reflexivity.
  - discriminate.
  - discriminate.
  - reflexivity.
  - reflexivity.
  - reflexivity.
  - reflexivity.
  - intros key. reflexivity.
Defined.

(** X12: the theorem at a video sent by the owner of [V1]. *)
Lemma direct_upload_succeeds_witness :
  let r := Sample.upload "video" Sample.clip in
  let st' := snd (serve (VideoDirect.handlerUploadVideo Sample.lib
                           Sample.cfg (Sample.env 1920 1080) r)
                    Sample.start) in
  exists videoID video form f,
    let key := hex (uuid_New (Sample.env 1920 1080)) +:+ Ext (Filename f) in
    let video' := setVideoURL video (publicURL Sample.cfg key) in
    authenticated Sample.lib Sample.cfg r videoID (UserID video)
    /\ db Sample.start !! videoID = Some video
    /\ MultipartForm r = Some form
    /\ form !! "video" = Some f
    /\ db st' = <[ID video := video']> (db Sample.start)
    /\ objects st'
       = <[(s3Bucket Sample.cfg, key) := (content f, "video/mp4")]>
           (objects Sample.start)
    /\ updates (trace st') = (updates (trace Sample.start) ++ [video'])%list
    /\ In (RespondJSON StatusOK video') (trace st')
    /\ (forall tmp, os_CreateTemp_name (Sample.env 1920 1080) = Some tmp ->
                    disk st' !! tmp = None).
Proof.
  intros r st'.
  apply (direct_upload_succeeds Sample.lib Sample.cfg (Sample.env 1920 1080)
           r Sample.start
           (fst (serve (VideoDirect.handlerUploadVideo Sample.lib Sample.cfg
                          (Sample.env 1920 1080) r) Sample.start)) st').
  - apply surjective_pairing.
  - vm_compute. reflexivity.
Defined.

(** X13: the theorem at a video of 1080 by 1920 sent by the owner of
    [V1]. *)
Lemma oriented_upload_succeeds_witness :
  let r := Sample.upload "video" Sample.clip in
  let env := Sample.env 1080 1920 in
  let st' := snd (serve (VideoOriented.handlerUploadVideo Sample.lib
                           Sample.cfg env r) Sample.start) in
  exists videoID video form f prefix,
    let key := prefix +:+ hex (uuid_New env) +:+ Ext (Filename f) in
    let video' := setVideoURL video (publicURL Sample.cfg key) in
    authenticated Sample.lib Sample.cfg r videoID (UserID video)
    /\ db Sample.start !! videoID = Some video
    /\ MultipartForm r = Some form
    /\ form !! "video" = Some f
    /\ In prefix ["landscape/"; "portrait/"; "other/"]
    /\ db st' = <[ID video := video']> (db Sample.start)
    /\ objects st'
       = <[(s3Bucket Sample.cfg, key) := (content f, "video/mp4")]>
           (objects Sample.start)
    /\ updates (trace st') = (updates (trace Sample.start) ++ [video'])%list
    /\ In (RespondJSON StatusOK video') (trace st')
    /\ (forall tmp, os_CreateTemp_name env = Some tmp ->
                    disk st' !! tmp = None).
Proof.
  intros r env st'.
  apply (oriented_upload_succeeds Sample.lib Sample.cfg env r Sample.start
           (fst (serve (VideoOriented.handlerUploadVideo Sample.lib
                          Sample.cfg env r) Sample.start)) st').
  - apply surjective_pairing.
  - vm_compute. reflexivity.
Defined.

(** X14: the theorem at a PNG thumbnail sent by the owner of [V1]. *)
Lemma disk_thumbnail_succeeds_witness :
  let r := Sample.upload "thumbnail" Sample.png in
  let st' := snd (serve (ThumbnailDisk.handlerUploadThumbnail Sample.lib
                           Sample.cfg (Sample.env 1920 1080) r)
                    Sample.start) in
  exists videoID video form f mt,
    let assetPath := getAssetPath Sample.lib videoID (ContentType f) in
    let video' :=
      setThumbnailURL video (getAssetURL Sample.lib Sample.cfg assetPath) in
    authenticated Sample.lib Sample.cfg r videoID (UserID video)
    /\ db Sample.start !! videoID = Some video
    /\ MultipartForm r = Some form
    /\ form !! "thumbnail" = Some f
    /\ ParseMediaType Sample.lib (ContentType f) = Some mt
    /\ (mt = "image/jpeg" \/ mt = "image/png")
    /\ db st' = <[ID video := video']> (db Sample.start)
    /\ disk st'
       = <[getAssetDiskPath Sample.lib Sample.cfg assetPath := content f]>
           (disk Sample.start)
    /\ trace st'
       = (trace Sample.start
          ++ [FileCreate (getAssetDiskPath Sample.lib Sample.cfg assetPath);
              FileWrite (getAssetDiskPath Sample.lib Sample.cfg assetPath);
              DBGetVideo videoID; DBUpdateVideo video';
              RespondJSON StatusOK video'])%list
    /\ fst (serve (ThumbnailDisk.handlerUploadThumbnail Sample.lib
                     Sample.cfg (Sample.env 1920 1080) r) Sample.start)
       = Finished.
Proof.
  intros r st'.
  apply (disk_thumbnail_succeeds Sample.lib Sample.cfg (Sample.env 1920 1080)
           r Sample.start).
  - apply surjective_pairing.
  - vm_compute. reflexivity.
Defined.

(** X15: the theorem at a PNG thumbnail sent by the owner of [V1]. *)
Lemma data_url_thumbnail_succeeds_witness :
  let r := Sample.upload "thumbnail" Sample.png in
  let st' := snd (serve (ThumbnailDataURL.handlerUploadThumbnail Sample.lib
                           Sample.cfg (Sample.env 1920 1080) r)
                    Sample.start) in
  exists videoID video form f,
    let video' :=
      setThumbnailURL video
        ("data:" +:+ ContentType f +:+ ";base64,"
         +:+ EncodeToString (content f)) in
    authenticated Sample.lib Sample.cfg r videoID (UserID video)
    /\ db Sample.start !! videoID = Some video
    /\ MultipartForm r = Some form
    /\ form !! "thumbnail" = Some f
    /\ ContentType f <> ""
    /\ db st' = <[ID video := video']> (db Sample.start)
    /\ disk st' = disk Sample.start
    /\ trace st'
       = (trace Sample.start
          ++ [DBGetVideo videoID; DBUpdateVideo video';
              RespondJSON StatusOK video'])%list
    /\ fst (serve (ThumbnailDataURL.handlerUploadThumbnail Sample.lib
                     Sample.cfg (Sample.env 1920 1080) r) Sample.start)
       = Finished.
Proof.
  intros r st'.
  apply (data_url_thumbnail_succeeds Sample.lib Sample.cfg
           (Sample.env 1920 1080) r Sample.start).
  - apply surjective_pairing.
  - vm_compute. reflexivity.
Defined.

(** X16: the theorem at a PNG thumbnail for [V1] stored by [alice], its
    owner, and then another one sent by [bob]. *)
Lemma stranger_replaces_thumbnail_file_witness :
  let env := Sample.env 1920 1080 in
  let theirs := mkFormFile "other.png" "image/png" "OTHER" in
  let st1 :=
    snd (serve (ThumbnailDisk.handlerUploadThumbnail Sample.lib Sample.cfg
                  env (Sample.upload "thumbnail" Sample.png))
           Sample.start) in
  let st2 :=
    snd (serve (ThumbnailDisk.handlerUploadThumbnail Sample.lib Sample.cfg
                  env (Sample.uploadAs "bob" "thumbnail" theirs)) st1) in
  statuses (trace st2) = [StatusOK; StatusUnauthorized]
  /\ db st1 !! "V1"
     = Some (setThumbnailURL Sample.V1 "http://localhost:8091/assets/V1.png")
  /\ disk st1 !! "/srv/tubely/assets/V1.png" = Some "PNG"
  /\ db st2 = db st1
  /\ disk st2 !! "/srv/tubely/assets/V1.png" = Some "OTHER".
Proof.
  intros env theirs st1 st2.
  destruct (stranger_replaces_thumbnail_file Sample.lib Sample.cfg "V1"
              Sample.V1 "image/png" "image/png"
              ltac:(discriminate) eq_refl (or_intror eq_refl)
              env env (Sample.upload "thumbnail" Sample.png)
              (Sample.uploadAs "bob" "thumbnail" theirs) Sample.start
              {[ "thumbnail" := Sample.png ]} {[ "thumbnail" := theirs ]}
              Sample.png theirs "bob")
    as (Hstatus & Hrecord & Hfirst & Hsame & Hsecond).
  - split; [reflexivity|]. exists "alice.s3cr3t". split; reflexivity.
  - split; [reflexivity|]. exists "bob.s3cr3t". split; reflexivity.
  - discriminate.
  - vm_compute. reflexivity.
  - reflexivity.
  - reflexivity.
  - vm_compute. reflexivity.
  - reflexivity.
  - vm_compute. reflexivity.
  - reflexivity.
  - reflexivity.
  - reflexivity.
  - reflexivity.
  - reflexivity.
  - reflexivity.
  - reflexivity.
  - split; [exact Hstatus|]. split; [exact Hrecord|].
    split; [exact Hfirst|]. split; [exact Hsame|exact Hsecond].
Defined.


(** X18: the theorem at the probe of a staged file of 1920 by 1080. *)
Lemma aspect_ratio_reads_back_witness :
  getVideoAspectRatio Sample.lib (Sample.env 1920 1080)
    "/tmp/tubely-upload-1.mp4" Sample.staged
  = (Next (Some "1920:1080"),
     emit (RunProbe "/tmp/tubely-upload-1.mp4") Sample.staged)
  /\ exists p0 p1,
       Split "1920:1080" ":" = [p0; p1]
       /\ Atoi p0 = (1920, false) /\ Atoi p1 = (1080, false).
Proof.
  assert (Hrun : getVideoAspectRatio Sample.lib (Sample.env 1920 1080)
                   "/tmp/tubely-upload-1.mp4" Sample.staged
                 = (Next (Some "1920:1080"),
                    emit (RunProbe "/tmp/tubely-upload-1.mp4")
                      Sample.staged))
    by (vm_compute; reflexivity).
  split; [exact Hrun|].
  destruct (aspect_ratio_reads_back _ _ _ _ _ _ Hrun)
    as (_ & _ & _ & _ & Hratio).
  destruct (Hratio "1920:1080" eq_refl)
    as (abs & w & h & more & Habs & Hprobe & _ & _ & Hback).
  vm_compute in Hprobe. injection Hprobe as <- <- _.
  apply Hback; unfold minInt, maxInt; lia.
Defined.

(** X19: the theorem at the remux of a staged file. *)
Lemma fast_start_writes_beside_input_witness :
  let result :=
    processVideoForFastStart Sample.lib (Sample.env 1920 1080)
      "/tmp/tubely-upload-1.mp4" Sample.staged in
  fst result = Next (Some "/tmp/tubely-upload-1.mp4.processing")
  /\ disk (snd result) !! "/tmp/tubely-upload-1.mp4" = Some "BYTES"
  /\ disk (snd result) !! "/tmp/tubely-upload-1.mp4.processing"
     = Some "BYTES".
Proof.
  intros result.
  assert (Hrun : processVideoForFastStart Sample.lib (Sample.env 1920 1080)
                   "/tmp/tubely-upload-1.mp4" Sample.staged
                 = (Next (Some "/tmp/tubely-upload-1.mp4.processing"),
                    snd result))
    by (vm_compute; reflexivity).
  destruct (fast_start_writes_beside_input _ _ _ _ _ _ Hrun)
    as (_ & _ & _ & _ & Hdisk).
  destruct (Hdisk "/tmp/tubely-upload-1.mp4" eq_refl)
    as (Hinput & _ & Hout).
  destruct (Hout _ eq_refl) as (_ & bytes & Hremux & Hfile).
  vm_compute in Hremux. injection Hremux as <-.
  split; [vm_compute; reflexivity|].
  split; [rewrite Hinput; vm_compute; reflexivity|exact Hfile].
Defined.
